(** * SDRF template migration: header comments to metadata columns

    A shallow embedding of [scripts/update_tsv_to_columns.py] and the
    properties of its TSV rewrite.

    Python's [str] is a sequence of Unicode code points; it is modelled as
    [list N], one number per code point.  The file store maps a path to the
    text that [f.read()] returns for it. *)

From Stdlib Require Import NArith String Ascii List Bool Lia DecimalString.
From stdpp Require Import gmap list.

(** ** The Python built-ins the script calls *)

Module Py.

Local Open Scope N_scope.

Definition NL : N := 10.
Definition TAB : N := 9.
Definition HASH : N := 35.
Definition EQUALS : N := 61.
Definition UNDERSCORE : N := 95.

(** An ASCII literal of the source, as code points. *)
Definition py (s : string) : list N :=
  map N_of_ascii (list_ascii_of_string s).
Arguments py _%_string.

(** Truth value of a sequence: empty is false. *)
Definition truthy {A : Type} (l : list A) : bool :=
  match l with
  | [] => false
  | _ :: _ => true
  end.

(** [str.isspace] on one code point: the white-space set of CPython's
    Unicode type database. *)
Definition isspace (c : N) : bool :=
  ((9 <=? c) && (c <=? 13)) || ((28 <=? c) && (c <=? 32))
  || (c =? 133) || (c =? 160) || (c =? 5760)
  || ((8192 <=? c) && (c <=? 8202))
  || (c =? 8232) || (c =? 8233) || (c =? 8239) || (c =? 8287)
  || (c =? 12288).

Fixpoint lstrip (s : list N) : list N :=
  match s with
  | [] => []
  | c :: s' => if isspace c then lstrip s' else s
  end.

Definition rstrip (s : list N) : list N := rev (lstrip (rev s)).

(** [s.strip()] with no argument. *)
Definition strip (s : list N) : list N := rstrip (lstrip s).

(** [s.startswith(prefix)]. *)
Fixpoint startswith (prefix s : list N) : bool :=
  match prefix, s with
  | [], _ => true
  | _ :: _, [] => false
  | p :: prefix', c :: s' => (p =? c) && startswith prefix' s'
  end.

(** [sub in s] on strings: [sub] occurs in [s] as a contiguous run. *)
Fixpoint contains (sub s : list N) : bool :=
  startswith sub s
  || match s with
     | [] => false
     | _ :: s' => contains sub s'
     end.

(** [s.split(sep)] for a separator of one character, the only use the
    script makes of it.  The result is never empty. *)
Fixpoint split (sep : N) (s : list N) : list (list N) :=
  match s with
  | [] => [[]]
  | c :: s' =>
      if c =? sep then [] :: split sep s'
      else match split sep s' with
           | [] => [[c]]
           | field :: fields => (c :: field) :: fields
           end
  end.

(** [sep.join(parts)]. *)
Fixpoint join (sep : list N) (parts : list (list N)) : list N :=
  match parts with
  | [] => []
  | [p] => p
  | p :: (_ :: _) as rest => p ++ sep ++ join sep rest
  end.

(** Longest prefix whose characters satisfy [p], and the rest. *)
Fixpoint span (p : N -> bool) (s : list N) : list N * list N :=
  match s with
  | [] => ([], [])
  | c :: s' =>
      if p c then let (taken, rest) := span p s' in (c :: taken, rest)
      else ([], s)
  end.

Definition ascii_alnum (c : N) : bool :=
  ((48 <=? c) && (c <=? 57)) || ((65 <=? c) && (c <=? 90))
  || ((97 <=? c) && (c <=? 122)).

End Py.

Import Py.


(** ** Files and console *)

(** What a run does to the outside, in order. *)
Inductive event :=
| EvRead (path : list N)
| EvWrite (path data : list N)
| EvPrint (message : list N).

(** The file store, by path, and the events so far. *)
Record world := World {
  files : gmap (list N) (list N);
  trace : list event
}.

(** A command: it fails with an exception ([None]) or returns a value and
    the world it leaves. *)
Definition io (A : Type) : Type := world -> option (A * world).

Definition io_ret {A : Type} (a : A) : io A := fun w => Some (a, w).

Definition io_bind {A B : Type} (m : io A) (k : A -> io B) : io B :=
  fun w =>
    match m w with
    | None => None
    | Some (a, w') => k a w'
    end.

Notation "'do' x <- m ; k" := (io_bind m (fun x => k))
  (at level 10, x name, m at level 100, k at level 200).
Notation "m >> k" := (io_bind m (fun _ => k))
  (at level 65, right associativity).

(** [with open(path) as f: f.read()]: an exception when there is no such
    file. *)
Definition read_text (path : list N) : io (list N) :=
  fun w =>
    match files w !! path with
    | None => None
    | Some content =>
        Some (content,
              {| files := files w; trace := trace w ++ [EvRead path] |})
    end.

(** [with open(path, "w") as f] around writes that add up to [data]: the
    file holds [data] when the block is left. *)
Definition write_text (path data : list N) : io unit :=
  fun w =>
    Some (tt, {| files := <[path := data]> (files w);
                 trace := trace w ++ [EvWrite path data] |}).

Definition print (message : list N) : io unit :=
  fun w =>
    Some (tt, {| files := files w; trace := trace w ++ [EvPrint message] |}).

(** ** The regular expression of [parse_headers] *)

Section Script.

(** [str.isalnum] on the code points from 128 on, as Python's Unicode
    database gives it.  The database is not part of the repository, so the
    development holds for every such table. *)
Variable isalnum_ext : N -> bool.

(** The class [\w] of a [str] pattern: alphanumeric or underscore. *)
Definition is_word (c : N) : bool :=
  if (c <? 128)%N then ascii_alnum c || (c =? UNDERSCORE)%N
  else isalnum_ext c.

(** The class [.]: any character but a newline. *)
Definition is_dot (c : N) : bool := negb (c =? NL)%N.

(** [re.match(r"#(\w+)=(.+)", line)] and its [groups()].  [\w+] is greedy
    and [=] is no word character, so the key is the longest run of word
    characters after the [#]; [.+] is greedy up to a newline and needs one
    character at least.  The match is anchored at the start only. *)
Definition re_match (line : list N) : option (list N * list N) :=
  match line with
  | [] => None
  | c :: after_hash =>
      if (c =? HASH)%N then
        let (key, after_key) := span is_word after_hash in
        match key, after_key with
        | _ :: _, e :: after_eq =>
            if (e =? EQUALS)%N then
              let value := fst (span is_dot after_eq) in
              if truthy value then Some (key, value) else None
            else None
        | _, _ => None
        end
      else None
  end.

(** ** [parse_headers] *)

(** The [metadata] dict of the script, with its two keys. *)
Record metadata := Metadata {
  version : list N;
  templates : list (list N)
}.

(** One turn of the loop over the lines (source lines 59 to 67). *)
Definition parse_line (md : metadata) (line : list N) : metadata :=
  if startswith (py "#") line then
    match re_match line with
    | Some (key, value) =>
        if decide (key = py "version") then
          {| version := value; templates := templates md |}
        else if decide (key = py "template") then
          {| version := version md; templates := templates md ++ [value] |}
        else md
    | None => md
    end
  else md.

Definition parse_headers (content : list N) : metadata :=
  let lines := split NL content in
  fold_left parse_line lines
    {| version := py "v1.1.0"; templates := [] |}.

(** ** The steps of [update_tsv_file] *)

(** The test of the header search (source line 86). *)
Definition is_header_row (line : list N) : bool :=
  truthy (strip line) && negb (startswith (py "#") line).

(** The search loop over [enumerate(lines)] (source lines 82 to 89), from
    index [i] on: the first line that passes the test, with its index. *)
Fixpoint locate_from (i : nat) (lines : list (list N))
  : option (nat * list N) :=
  match lines with
  | [] => None
  | line :: rest =>
      if is_header_row line then Some (i, line)
      else locate_from (S i) rest
  end.

Definition locate_header_row (lines : list (list N))
  : option (nat * list N) :=
  locate_from 0 lines.

Definition VERSION_COLUMN : list N := py "comment[sdrf version]".
Definition TEMPLATE_COLUMN : list N := py "comment[sdrf template]".
Definition TOOL_COLUMN : list N := py "comment[sdrf annotation tool]".

(** [any(name in col for col in columns)]. *)
Definition has_column (name : list N) (columns : list (list N)) : bool :=
  existsb (contains name) columns.

(** The column step (source lines 98 to 115): the presence checks, then
    the appends to a copy of [columns], one after the other. *)
Definition build_columns (columns : list (list N)) (md : metadata)
  : list (list N) :=
  let has_version := has_column VERSION_COLUMN columns in
  let has_template := has_column TEMPLATE_COLUMN columns in
  let has_tool := has_column TOOL_COLUMN columns in
  let new_columns := columns in
  let new_columns :=
    if has_version then new_columns
    else new_columns ++ [VERSION_COLUMN] in
  let new_columns :=
    if has_template then new_columns
    else if truthy (templates md) then
      fold_left (fun acc _ => acc ++ [TEMPLATE_COLUMN]) (templates md)
        new_columns
    else new_columns ++ [TEMPLATE_COLUMN] in
  let new_columns :=
    if has_tool then new_columns
    else new_columns ++ [TOOL_COLUMN] in
  new_columns.

(** The columns that [build_columns] adds after the existing ones. *)
Definition appended_columns (columns : list (list N)) (md : metadata)
  : list (list N) :=
  drop (length columns) (build_columns columns md).

(** What the [with open(tsv_path, "w")] block writes (source lines 124 to
    128): the header line, then every line of [data_lines] that is not
    blank, each with a newline. *)
Definition write_body (new_header_line : list N)
    (data_lines : list (list N)) : list N :=
  fold_left
    (fun written line =>
       if truthy (strip line) then written ++ line ++ [NL] else written)
    data_lines (new_header_line ++ [NL]).

(** The content transformation of [update_tsv_file] (source lines 78 to
    128): [None] when no header row is found, else the new text. *)
Definition rewrite (content : list N) : option (list N) :=
  let metadata := parse_headers content in
  let lines := split NL content in
  match locate_header_row lines with
  | None => None
  | Some (header_idx, header_line) =>
      let columns := split TAB header_line in
      let new_columns := build_columns columns metadata in
      let new_header_line := join [TAB] new_columns in
      let data_lines := drop (header_idx + 1) lines in
      Some (write_body new_header_line data_lines)
  end.

(** [update_tsv_file]: read, transform, and either report the missing
    header row and return [False], or write the new text and return
    [True]. *)
Definition update_tsv_file (tsv_path template_name : list N) : io bool :=
  do content <- read_text tsv_path;
  match rewrite content with
  | None =>
      print (py "  ERROR: No header row found in " ++ tsv_path) >>
      io_ret false
  | Some written =>
      write_text tsv_path written >>
      io_ret true
  end.

End Script.

(** ** The specification's wording, and the documents of its examples *)

(** A table with no alphanumeric character past ASCII, for the concrete
    runs; the documents of those runs are ASCII, so the table is never
    consulted. *)
Definition ascii_only : N -> bool := fun _ => false.

(** The header test as the specification words it: non-empty "after no
    trimming", and not a comment. *)
Definition is_header_row_untrimmed (line : list N) : bool :=
  truthy line && negb (startswith (py "#") line).

Fixpoint locate_untrimmed_from (i : nat) (lines : list (list N))
  : option (nat * list N) :=
  match lines with
  | [] => None
  | line :: rest =>
      if is_header_row_untrimmed line then Some (i, line)
      else locate_untrimmed_from (S i) rest
  end.

Definition locate_untrimmed (lines : list (list N))
  : option (nat * list N) :=
  locate_untrimmed_from 0 lines.

(** The scenario of the specification. *)
Definition scenario_input : list N :=
  py "#version=1.0.0" ++ [NL] ++ py "#template=plants" ++ [NL]
  ++ py "source name" ++ [TAB] ++ py "characteristics[organism]" ++ [NL]
  ++ py "sample1" ++ [TAB] ++ py "Arabidopsis" ++ [NL] ++ [NL].

Definition scenario_output : list N :=
  py "source name" ++ [TAB] ++ py "characteristics[organism]" ++ [TAB]
  ++ py "comment[sdrf version]" ++ [TAB] ++ py "comment[sdrf template]"
  ++ [TAB] ++ py "comment[sdrf annotation tool]" ++ [NL]
  ++ py "sample1" ++ [TAB] ++ py "Arabidopsis" ++ [NL].

(** A store with the scenario document as its one file. *)
Definition scenario_world : world :=
  {| files := {[ py "plants.sdrf.tsv" := scenario_input ]}; trace := [] |}.

(** A file of comments only, in a store of one file. *)
Definition comments_only : list N :=
  py "#version=1.0.0" ++ [NL] ++ py "#template=plants" ++ [NL].

Definition comments_only_world : world :=
  {| files := {[ py "plants.sdrf.tsv" := comments_only ]}; trace := [] |}.

(** A blank line of two spaces before the column names. *)
Definition blank_then_header : list (list N) :=
  [py "  "; py "source name"].

(** The four comment lines of the [parseHeaders] example. *)
Definition headers_example : list N :=
  py "#version=2.3.0" ++ [NL] ++ py "#template=human" ++ [NL]
  ++ py "#template=cell-lines" ++ [NL] ++ py "#bogus=xyz".

(** The metadata as the data model words it: parsed from the lines that
    precede the column-header row. *)
Definition metadata_before_header (db : N -> bool) (content : list N)
  : metadata :=
  let lines := split NL content in
  match locate_header_row lines with
  | Some (header_idx, _) =>
      parse_headers db (join [NL] (take header_idx lines))
  | None => parse_headers db content
  end.

(** Column names, then a version comment below them. *)
Definition header_then_version : list N :=
  py "source name" ++ [NL] ++ py "#version=9.9.9".

(** Column names, then a comment line below them. *)
Definition header_then_comment : list N :=
  py "source name" ++ [NL] ++ py "#note" ++ [NL].

Definition header_then_comment_output : list N :=
  py "source name" ++ [TAB] ++ py "comment[sdrf version]" ++ [TAB]
  ++ py "comment[sdrf template]" ++ [TAB]
  ++ py "comment[sdrf annotation tool]" ++ [NL] ++ py "#note" ++ [NL].

(** Two lines that are the same, or both [#version=] comments with
    whatever value. *)
Definition same_up_to_version (line line' : list N) : Prop :=
  line = line' \/
  (startswith (py "#version=") line = true /\
   startswith (py "#version=") line' = true).

(** Column names, then a version comment with the given value below. *)
Definition version_below_header (value : list N) : list N :=
  py "source name" ++ [NL] ++ py "#version=" ++ value ++ [NL].

(** A version comment with the given value, then column names and a
    sample. *)
Definition version_above_header (value : list N) : list N :=
  py "#version=" ++ value ++ [NL] ++ py "source name" ++ [NL]
  ++ py "sample1" ++ [NL].

(** ** Finding the files, and the batch *)

(** The templates to update, as the script lists them. *)
Definition TEMPLATES : list (list N) :=
  [py "base"; py "human"; py "vertebrates"; py "invertebrates";
   py "plants"; py "cell-lines"; py "single-cell"; py "ms-proteomics";
   py "affinity-proteomics"; py "dda-acquisition"; py "dia-acquisition";
   py "crosslinking"; py "immunopeptidomics"; py "metaproteomics";
   py "olink"; py "somascan"].

(** The directory tree and [pathlib], which are outside the repository:
    the root the script computes from its own location, the [/] of paths,
    [relative_to] (no result where it raises), and what the tree answers
    to [exists], [is_dir] and [iterdir] (no result where listing raises).
    A path is its text, as [open] receives it.  The script overwrites the
    content of files that are there and does nothing else to the tree, so
    the answers are the same all through a run; the development holds for
    every such host. *)
Record host := Host {
  REPO_ROOT : list N;
  path_join : list N -> list N -> list N;
  relative_to : list N -> list N -> option (list N);
  path_exists : list N -> bool;
  is_dir : list N -> bool;
  iterdir : list N -> option (list (list N))
}.

(** The loop of [find_tsv_file] over the entries of the template
    directory (source lines 42 to 46). *)
Fixpoint find_in_versions (fs : host) (template_name : list N)
    (entries : list (list N)) : option (list N) :=
  match entries with
  | [] => None
  | version_dir :: rest =>
      if is_dir fs version_dir then
        let tsv_file :=
          path_join fs version_dir (template_name ++ py ".sdrf.tsv") in
        if path_exists fs tsv_file then Some tsv_file
        else find_in_versions fs template_name rest
      else find_in_versions fs template_name rest
  end.

(** [find_tsv_file]: an exception (outer [None]), or [None], or the first
    file found. *)
Definition find_tsv_file (fs : host) (template_name : list N)
  : option (option (list N)) :=
  let template_dir := path_join fs (REPO_ROOT fs) template_name in
  if negb (path_exists fs template_dir) then Some None
  else
    match iterdir fs template_dir with
    | None => None
    | Some entries => Some (find_in_versions fs template_name entries)
    end.

(** A computation with no effect on the world, which may raise. *)
Definition io_lift {A : Type} (r : option A) : io A :=
  fun w =>
    match r with
    | None => None
    | Some a => Some (a, w)
    end.

(** [str(n)] for a count. *)
Definition str_of_nat (n : nat) : list N :=
  py (NilEmpty.string_of_uint (Nat.to_uint n)).

(** One turn of the loop of [main] (source lines 139 to 146), from the
    count so far to the count after. *)
Definition main_step (db : N -> bool) (fs : host) (updated : nat)
    (template_name : list N) : io nat :=
  do found <- io_lift (find_tsv_file fs template_name);
  match found with
  | None =>
      print (py "SKIP: " ++ template_name ++ py " - no TSV file found") >>
      io_ret updated
  | Some tsv_path =>
      do shown <- io_lift (relative_to fs tsv_path (REPO_ROOT fs));
      print (py "Updating: " ++ shown) >>
      do ok <- update_tsv_file db tsv_path template_name;
      io_ret (if ok : bool then updated + 1 else updated)
  end.

Fixpoint main_loop (db : N -> bool) (fs : host)
    (template_names : list (list N)) (updated : nat) : io nat :=
  match template_names with
  | [] => io_ret updated
  | template_name :: rest =>
      do updated' <- main_step db fs updated template_name;
      main_loop db fs rest updated'
  end.

(** [main]. *)
Definition main (db : N -> bool) (fs : host) : io unit :=
  print (py "Updating TSV templates to column-based metadata...") >>
  print (replicate 60 45%N) >>
  do updated <- main_loop db fs TEMPLATES 0;
  print (replicate 60 45%N) >>
  print (py "Updated " ++ str_of_nat updated ++ py " TSV files").

(** The writes among some events. *)
Definition is_write (e : event) : bool :=
  match e with
  | EvWrite _ _ => true
  | _ => false
  end.

Definition count_writes (events : list event) : nat :=
  length (List.filter is_write events).

(** The text of a file after [update_tsv_file]: rewritten, or as it was
    where there is no header row. *)
Definition rewritten (db : N -> bool) (content : list N) : list N :=
  match rewrite db content with
  | Some written => written
  | None => content
  end.

(** Whether [find_tsv_file] gives the path for one of the names. *)
Definition found_for (fs : host) (template_names : list (list N))
    (path : list N) : bool :=
  existsb
    (fun template_name =>
       bool_decide (find_tsv_file fs template_name = Some (Some path)))
    template_names.

(** What a run needs of a template not to raise: the search returns, and
    where it returns a path, the path is below the root and the file is in
    the store. *)
Definition can_update (fs : host) (w : world) (template_name : list N)
  : Prop :=
  exists found,
    find_tsv_file fs template_name = Some found /\
    forall tsv_path, found = Some tsv_path ->
      is_Some (relative_to fs tsv_path (REPO_ROOT fs)) /\
      is_Some (files w !! tsv_path).

(** A host for the concrete runs: the root [/repo], with the directory
    [plants/1.0.0] that holds [plants.sdrf.tsv], and no other template
    directory. *)
Definition demo_join (a b : list N) : list N := a ++ py "/" ++ b.

Definition demo_host : host :=
  {| REPO_ROOT := py "/repo";
     path_join := demo_join;
     relative_to := fun p root =>
       if startswith (root ++ py "/") p
       then Some (drop (length root + 1) p) else None;
     path_exists := fun p =>
       bool_decide (p ∈ [py "/repo/plants"; py "/repo/plants/README.md";
                         py "/repo/plants/1.0.0";
                         py "/repo/plants/1.0.0/plants.sdrf.tsv"]);
     is_dir := fun p =>
       bool_decide (p ∈ [py "/repo/plants"; py "/repo/plants/1.0.0"]);
     iterdir := fun p =>
       if bool_decide (p = py "/repo/plants")
       then Some [py "/repo/plants/README.md"; py "/repo/plants/1.0.0"]
       else if bool_decide (p = py "/repo/plants/1.0.0")
       then Some [py "/repo/plants/1.0.0/plants.sdrf.tsv"]
       else None |}.

Definition demo_world : world :=
  {| files := {[ py "/repo/plants/1.0.0/plants.sdrf.tsv" := scenario_input ]};
     trace := [] |}.

(** The world after one run of [main] on [demo_world]. *)
Definition demo_world_after : world :=
  match main ascii_only demo_host demo_world with
  | Some (_, w) => w
  | None => demo_world
  end.

(** ** Facts about the built-ins *)

Section PyFacts.

Implicit Types (s line : list N) (parts : list (list N)) (sep : N).

Lemma truthy_true {A : Type} (l : list A) : truthy l = true <-> l <> [].
Proof. destruct l; simpl; split; congruence. Qed.

Lemma truthy_app_l {A : Type} (l k : list A) :
  truthy l = true -> truthy (l ++ k) = true.
Proof. destruct l; simpl; congruence. Qed.

Lemma split_cons_shape sep s : exists field fields, split sep s = field :: fields.
Proof.
  induction s as [|c s IH]; simpl; [eauto|].
  destruct (c =? sep)%N; [eauto|].
  destruct IH as (f & fs & ->). eauto.
Qed.

Lemma split_nonempty sep s : split sep s <> [].
Proof. destruct (split_cons_shape sep s) as (f & fs & ->). discriminate. Qed.

Lemma split_cons_ne sep c s :
  c <> sep ->
  split sep (c :: s) =
    (c :: hd [] (split sep s)) :: tl (split sep s).
Proof.
  intros Hc. simpl. destruct (N.eqb_spec c sep); [contradiction|].
  destruct (split_cons_shape sep s) as (f & fs & ->). reflexivity.
Qed.

Lemma split_cons_eq sep s : split sep (sep :: s) = [] :: split sep s.
Proof. simpl. now rewrite N.eqb_refl. Qed.

Lemma join_cons (sepstr : list N) p q parts :
  join sepstr (p :: q :: parts) = p ++ sepstr ++ join sepstr (q :: parts).
Proof. reflexivity. Qed.

Lemma join_char_cons sep p q parts :
  join [sep] (p :: q :: parts) = p ++ sep :: join [sep] (q :: parts).
Proof. reflexivity. Qed.

Lemma join_cons_ne (sepstr : list N) p parts :
  parts <> [] -> join sepstr (p :: parts) = p ++ sepstr ++ join sepstr parts.
Proof. destruct parts; [congruence|]. intros _. apply join_cons. Qed.

(** Joining the fields of a split gives the text back. *)
Lemma join_split sep s : join [sep] (split sep s) = s.
Proof.
  induction s as [|c s IH]; [reflexivity|].
  destruct (N.eqb_spec c sep) as [->|Hc].
  - rewrite split_cons_eq, join_cons_ne by apply split_nonempty.
    simpl. now rewrite IH.
  - rewrite split_cons_ne by assumption.
    destruct (split_cons_shape sep s) as (f & fs & E).
    rewrite E in *. simpl hd. simpl tl.
    destruct fs as [|g fs].
    + simpl in *. now rewrite IH.
    + rewrite join_cons. rewrite join_cons in IH.
      rewrite <- app_comm_cons. now rewrite IH.
Qed.

(** No field of a split holds the separator. *)
Lemma split_sep_free sep s : Forall (fun field => sep ∉ field) (split sep s).
Proof.
  induction s as [|c s IH].
  - constructor; [|constructor]. apply not_elem_of_nil.
  - destruct (N.eqb_spec c sep) as [->|Hc].
    + rewrite split_cons_eq. constructor; [apply not_elem_of_nil|assumption].
    + rewrite split_cons_ne by assumption.
      destruct (split_cons_shape sep s) as (f & fs & E).
      rewrite E in *. simpl. inversion IH; subst.
      constructor; [|assumption].
      rewrite elem_of_cons. intros [->|?]; congruence.
Qed.

Lemma split_free sep s : sep ∉ s -> split sep s = [s].
Proof.
  induction s as [|c s IH]; [reflexivity|].
  rewrite not_elem_of_cons. intros [Hc Hs].
  rewrite split_cons_ne by congruence. now rewrite IH.
Qed.

Lemma split_app_sep sep a b :
  sep ∉ a -> split sep (a ++ sep :: b) = a :: split sep b.
Proof.
  induction a as [|c a IH]; intros Ha.
  - apply split_cons_eq.
  - apply not_elem_of_cons in Ha as [Hc Ha].
    rewrite <- app_comm_cons, split_cons_ne by congruence.
    now rewrite IH.
Qed.

(** Splitting a join of separator-free parts gives the parts back. *)
Lemma split_join sep parts :
  parts <> [] ->
  Forall (fun field => sep ∉ field) parts ->
  split sep (join [sep] parts) = parts.
Proof.
  induction parts as [|p parts IH]; [congruence|].
  intros _ Hfree. inversion Hfree as [|? ? Hp Hparts]; subst.
  destruct parts as [|q parts].
  - simpl. now apply split_free.
  - rewrite join_char_cons.
    rewrite split_app_sep by assumption.
    now rewrite IH.
Qed.

Lemma join_app sep parts more :
  parts <> [] -> more <> [] ->
  join [sep] (parts ++ more) = join [sep] parts ++ sep :: join [sep] more.
Proof.
  induction parts as [|p parts IH]; [congruence|].
  intros _ Hmore. destruct parts as [|q parts].
  - simpl app at 1. rewrite join_cons_ne by assumption. reflexivity.
  - rewrite <- !app_comm_cons, !join_char_cons.
    rewrite app_comm_cons, IH by (congruence || assumption).
    now rewrite <- app_assoc.
Qed.

(** The lines written one by one, read back by [split]: one more, empty,
    field after the last newline. *)
Lemma split_terminated sep parts :
  Forall (fun field => sep ∉ field) parts ->
  split sep (concat (map (fun d => d ++ [sep]) parts)) = parts ++ [[]].
Proof.
  induction 1 as [|d parts Hd _ IH]; [reflexivity|].
  simpl. rewrite <- app_assoc. simpl.
  rewrite split_app_sep by assumption. now rewrite IH.
Qed.

Lemma startswith_app prefix s more :
  startswith prefix s = true -> startswith prefix (s ++ more) = true.
Proof.
  revert s. induction prefix as [|p prefix IH]; intros [|c s]; simpl; try congruence.
  rewrite !andb_true_iff. intros [? ?]. auto.
Qed.

Lemma startswith_refl s : startswith s s = true.
Proof. induction s as [|c s IH]; simpl; [easy|]. now rewrite N.eqb_refl. Qed.

Lemma contains_refl s : contains s s = true.
Proof. destruct s; simpl; [easy|]. now rewrite N.eqb_refl, startswith_refl. Qed.

Lemma forallb_isspace_lstrip s :
  forallb isspace (lstrip s) = forallb isspace s.
Proof.
  induction s as [|c s IH]; [reflexivity|]. simpl.
  destruct (isspace c) eqn:E; [assumption|]. simpl. now rewrite E.
Qed.

Lemma truthy_lstrip s : truthy (lstrip s) = negb (forallb isspace s).
Proof.
  induction s as [|c s IH]; [reflexivity|]. simpl.
  destruct (isspace c); [assumption|reflexivity].
Qed.

Lemma truthy_rev {A : Type} (l : list A) : truthy (rev l) = truthy l.
Proof. destruct l as [|a l]; [reflexivity|]. simpl. now destruct (rev l). Qed.

Lemma forallb_rev {A : Type} (f : A -> bool) (l : list A) :
  forallb f (rev l) = forallb f l.
Proof.
  induction l as [|a l IH]; [reflexivity|]. simpl.
  rewrite forallb_app, IH. simpl. rewrite andb_true_r. apply andb_comm.
Qed.

(** [line.strip()] is true exactly when some character of the line is no
    white space. *)
Lemma truthy_strip s : truthy (strip s) = negb (forallb isspace s).
Proof.
  unfold strip, rstrip.
  now rewrite truthy_rev, truthy_lstrip, forallb_rev, forallb_isspace_lstrip.
Qed.

Lemma truthy_strip_app s more :
  truthy (strip s) = true -> truthy (strip (s ++ more)) = true.
Proof.
  rewrite !truthy_strip, forallb_app, !negb_true_iff.
  intros ->. reflexivity.
Qed.

Lemma truthy_strip_nonempty s : truthy (strip s) = true -> s <> [].
Proof. intros H ->. discriminate. Qed.

Lemma elem_of_join sepstr parts (x : N) :
  x ∈ join sepstr parts ->
  x ∈ sepstr \/ exists p, p ∈ parts /\ x ∈ p.
Proof.
  induction parts as [|p parts IH]; [now rewrite elem_of_nil|].
  destruct parts as [|q parts].
  - simpl. intros H. right. exists p. split; [left|assumption].
  - rewrite join_cons, !elem_of_app. intros [H|[H|H]].
    + right. exists p. split; [left|assumption].
    + now left.
    + destruct (IH H) as [?|(r & Hr & Hx)]; [now left|].
      right. exists r. split; [now right|assumption].
Qed.

Lemma elem_of_join_part sepstr parts p (x : N) :
  p ∈ parts -> x ∈ p -> x ∈ join sepstr parts.
Proof.
  induction parts as [|q parts IH]; [now rewrite elem_of_nil|].
  intros Hp Hx. destruct parts as [|r parts].
  - apply list_elem_of_singleton in Hp as ->. exact Hx.
  - rewrite join_cons, !elem_of_app.
    apply elem_of_cons in Hp as [->|Hp]; [now left|].
    right. right. now apply IH.
Qed.

(** The characters of a field are characters of the text. *)
Lemma elem_of_split sep s field (x : N) :
  field ∈ split sep s -> x ∈ field -> x ∈ s.
Proof.
  intros Hf Hx. rewrite <- (join_split sep s).
  now apply (elem_of_join_part _ _ field).
Qed.

Lemma startswith_char_app (c : N) s more :
  s <> [] -> startswith [c] (s ++ more) = startswith [c] s.
Proof. destruct s; [congruence|reflexivity]. Qed.

Lemma filter_all {A : Type} (f : A -> bool) (l : list A) :
  List.filter f (List.filter f l) = List.filter f l.
Proof.
  induction l as [|a l IH]; [reflexivity|]. simpl.
  destruct (f a) eqn:E; [|assumption]. simpl. now rewrite E, IH.
Qed.

End PyFacts.

(** ** Facts about the steps of the script *)

Section ScriptFacts.

Variable db : N -> bool.

Implicit Types (line content : list N) (lines : list (list N)).

Lemma is_header_row_nil : is_header_row [] = false.
Proof. reflexivity. Qed.

Lemma is_header_row_comment line :
  startswith (py "#") line = true -> is_header_row line = false.
Proof.
  intros H. unfold is_header_row. rewrite H. apply andb_false_r.
Qed.

Lemma is_header_row_true line :
  is_header_row line = true <->
  strip line <> [] /\ startswith (py "#") line = false.
Proof.
  unfold is_header_row.
  now rewrite andb_true_iff, negb_true_iff, truthy_true.
Qed.

Lemma is_header_row_blank line :
  forallb isspace line = true -> is_header_row line = false.
Proof.
  intros H. unfold is_header_row. now rewrite truthy_strip, H.
Qed.

Lemma locate_from_shift i lines :
  locate_from i lines =
    match locate_from 0 lines with
    | Some (j, h) => Some (i + j, h)
    | None => None
    end.
Proof.
  revert i. induction lines as [|line rest IH]; intros i; [reflexivity|].
  simpl. destruct (is_header_row line).
  - now rewrite Nat.add_0_r.
  - rewrite (IH (S i)), (IH 1). destruct (locate_from 0 rest) as [[j h]|];
      [|reflexivity].
    f_equal. f_equal. lia.
Qed.

Lemma locate_from_skip i pre lines :
  Forall (fun line => is_header_row line = false) pre ->
  locate_from i (pre ++ lines) = locate_from (i + length pre) lines.
Proof.
  intros H. revert i. induction H as [|line pre Hl _ IH]; intros i.
  - simpl. now rewrite Nat.add_0_r.
  - simpl. rewrite Hl, IH. f_equal. lia.
Qed.

Lemma locate_from_None i lines :
  locate_from i lines = None <->
  Forall (fun line => is_header_row line = false) lines.
Proof.
  revert i. induction lines as [|line rest IH]; intros i; simpl.
  - split; [constructor|reflexivity].
  - destruct (is_header_row line) eqn:E.
    + split; [discriminate|]. inversion 1; congruence.
    + rewrite IH. split; [now constructor|now inversion 1].
Qed.

(** The search returns a line of the document, with its index, that passes
    the test, and no line before it does. *)
Lemma locate_from_Some i lines j h :
  locate_from i lines = Some (j, h) ->
  exists pre post,
    lines = pre ++ h :: post /\ j = i + length pre /\
    Forall (fun line => is_header_row line = false) pre /\
    is_header_row h = true.
Proof.
  revert i. induction lines as [|line rest IH]; intros i; simpl;
    [discriminate|].
  destruct (is_header_row line) eqn:E.
  - intros [= <- <-]. exists [], rest. simpl.
    repeat split; [lia|constructor|assumption].
  - intros H. apply IH in H as (pre & post & -> & -> & Hpre & Hh).
    exists (line :: pre), post. simpl.
    repeat split; [lia|now constructor|assumption].
Qed.

Lemma fold_left_append_each {A B : Type} (x : A) (l : list B) (init : list A) :
  fold_left (fun acc _ => acc ++ [x]) l init = init ++ replicate (length l) x.
Proof.
  revert init. induction l as [|b l IH]; intros init; simpl.
  - now rewrite app_nil_r.
  - rewrite IH, <- app_assoc. reflexivity.
Qed.

(** The appends of [build_columns] in one expression. *)
Lemma build_columns_eq (columns : list (list N)) (md : metadata) :
  build_columns columns md =
    columns
    ++ (if has_column VERSION_COLUMN columns then [] else [VERSION_COLUMN])
    ++ (if has_column TEMPLATE_COLUMN columns then []
        else replicate (Nat.max 1 (length (templates md))) TEMPLATE_COLUMN)
    ++ (if has_column TOOL_COLUMN columns then [] else [TOOL_COLUMN]).
Proof.
  unfold build_columns.
  destruct (has_column VERSION_COLUMN columns),
    (has_column TEMPLATE_COLUMN columns), (has_column TOOL_COLUMN columns),
    (templates md) as [|t ts];
    cbn [truthy]; rewrite ?fold_left_append_each; cbn [length Nat.max replicate];
    rewrite <- ?app_assoc, ?app_nil_r; try reflexivity.
Qed.

Lemma appended_columns_eq (columns : list (list N)) (md : metadata) :
  appended_columns columns md =
    (if has_column VERSION_COLUMN columns then [] else [VERSION_COLUMN])
    ++ (if has_column TEMPLATE_COLUMN columns then []
        else replicate (Nat.max 1 (length (templates md))) TEMPLATE_COLUMN)
    ++ (if has_column TOOL_COLUMN columns then [] else [TOOL_COLUMN]).
Proof.
  unfold appended_columns. rewrite build_columns_eq.
  now rewrite drop_app_length.
Qed.

Lemma has_column_spec name (columns : list (list N)) :
  has_column name columns = true <->
  exists col, col ∈ columns /\ contains name col = true.
Proof.
  unfold has_column. rewrite existsb_exists.
  split; intros (col & H & ?); exists col; split; try assumption;
    now apply list_elem_of_In.
Qed.

Lemma has_column_app name (columns more : list (list N)) :
  has_column name (columns ++ more) =
    has_column name columns || has_column name more.
Proof. apply existsb_app. Qed.

(** The text written, in one expression. *)
Lemma write_body_eq (new_header_line : list N) (data_lines : list (list N)) :
  write_body new_header_line data_lines =
    new_header_line ++ NL ::
      concat (map (fun d => d ++ [NL])
                (List.filter (fun d => truthy (strip d)) data_lines)).
Proof.
  unfold write_body.
  assert (G : forall init,
    fold_left
      (fun written line =>
         if truthy (strip line) then written ++ line ++ [NL] else written)
      data_lines init =
    init ++ concat (map (fun d => d ++ [NL])
                      (List.filter (fun d => truthy (strip d)) data_lines))).
  { induction data_lines as [|d ds IH]; intros init; simpl.
    - now rewrite app_nil_r.
    - rewrite IH. destruct (truthy (strip d)); [|reflexivity].
      simpl. now rewrite <- !app_assoc. }
  rewrite G, <- app_assoc. reflexivity.
Qed.

Lemma span_app (p : N -> bool) (s taken rest : list N) :
  span p s = (taken, rest) -> s = taken ++ rest.
Proof.
  revert taken rest. induction s as [|c s IH]; intros taken rest; simpl.
  - now intros [= <- <-].
  - destruct (p c).
    + destruct (span p s) as [t r]. intros [= <- <-].
      simpl. f_equal. now apply IH.
    + now intros [= <- <-].
Qed.

Lemma startswith_elim (prefix s : list N) :
  startswith prefix s = true -> exists rest, s = prefix ++ rest.
Proof.
  revert s. induction prefix as [|p prefix IH]; intros s; simpl.
  - eauto.
  - destruct s as [|c s]; [discriminate|].
    rewrite andb_true_iff. intros [Hc Hs].
    apply N.eqb_eq in Hc as ->. apply IH in Hs as [rest ->]. eauto.
Qed.

(** A line that matches the pattern is [#], the key, [=], and more. *)
Lemma re_match_shape line key value :
  re_match db line = Some (key, value) ->
  exists rest, line = HASH :: key ++ EQUALS :: rest.
Proof.
  unfold re_match. destruct line as [|c after_hash]; [discriminate|].
  destruct (N.eqb_spec c HASH) as [->|]; [|discriminate].
  destruct (span (is_word db) after_hash) as [k after_key] eqn:E.
  apply span_app in E as ->.
  destruct k as [|k0 k]; [discriminate|].
  destruct after_key as [|e after_eq]; [discriminate|].
  destruct (N.eqb_spec e EQUALS) as [->|]; [|discriminate].
  destruct (truthy _); [|discriminate].
  intros [= <- <-]. eauto.
Qed.

Lemma parse_line_no_comment md line :
  startswith (py "#") line = false -> parse_line db md line = md.
Proof. intros H. unfold parse_line. now rewrite H. Qed.

(** What one line does to the metadata: nothing, or a new version from a
    [#version=] line, or one more template from a [#template=] line. *)
Lemma parse_line_cases md line :
  parse_line db md line = md \/
  (startswith (py "#version=") line = true /\
   exists value,
     parse_line db md line =
       {| version := value; templates := templates md |}) \/
  (startswith (py "#template=") line = true /\
   exists value,
     parse_line db md line =
       {| version := version md; templates := templates md ++ [value] |}).
Proof.
  unfold parse_line.
  destruct (startswith (py "#") line); [|now left].
  destruct (re_match db line) as [[key value]|] eqn:E; [|now left].
  apply re_match_shape in E as [rest ->].
  destruct (decide (key = py "version")) as [->|];
    [right; left; split; [reflexivity|eauto]|].
  destruct (decide (key = py "template")) as [->|];
    [right; right; split; [reflexivity|eauto]|].
  now left.
Qed.

Lemma version_line_not_template line :
  startswith (py "#version=") line = true ->
  startswith (py "#template=") line = false.
Proof. intros H. apply startswith_elim in H as [rest ->]. reflexivity. Qed.

Lemma version_line_comment line :
  startswith (py "#version=") line = true ->
  startswith (py "#") line = true.
Proof. intros H. apply startswith_elim in H as [rest ->]. reflexivity. Qed.

(** The templates after a line depend on the templates before it only. *)
Lemma parse_line_templates_congr md md' line :
  templates md = templates md' ->
  templates (parse_line db md line) = templates (parse_line db md' line).
Proof.
  intros H. unfold parse_line.
  destruct (startswith (py "#") line); [|assumption].
  destruct (re_match db line) as [[key value]|]; [|assumption].
  destruct (decide (key = py "version")); [assumption|].
  destruct (decide (key = py "template")); [|assumption].
  simpl. now rewrite H.
Qed.

Lemma parse_line_version_line_templates md line :
  startswith (py "#version=") line = true ->
  templates (parse_line db md line) = templates md.
Proof.
  intros H. destruct (parse_line_cases md line)
    as [->|[[_ [value ->]]|[Ht _]]]; try reflexivity.
  apply version_line_not_template in H. congruence.
Qed.

End ScriptFacts.

(** The table has no part in the result: a key with a character outside
    ASCII is neither [version] nor [template], whether the pattern matches
    it or not. *)
Lemma parse_line_table_irrelevant db db' md line :
  parse_line db md line = parse_line db' md line.
Proof.
  destruct (startswith (py "#version=") line) eqn:Ev.
  { apply startswith_elim in Ev as [rest ->]. reflexivity. }
  destruct (startswith (py "#template=") line) eqn:Et.
  { apply startswith_elim in Et as [rest ->]. reflexivity. }
  destruct (parse_line_cases db md line) as [->|[[? _]|[? _]]];
    [|congruence..].
  destruct (parse_line_cases db' md line) as [->|[[? _]|[? _]]];
    [reflexivity|congruence..].
Qed.

Lemma parse_headers_table_irrelevant db db' content :
  parse_headers db content = parse_headers db' content.
Proof.
  unfold parse_headers. generalize (Metadata (py "v1.1.0") []).
  induction (split NL content) as [|line lines IH]; intros md;
    [reflexivity|].
  simpl. rewrite (parse_line_table_irrelevant db db'). apply IH.
Qed.

(** X19. The text written is the same whatever the Unicode table says of
    the characters past ASCII: a comment whose key holds such a character
    is ignored, be the character a word character or not. *)
Theorem rewrite_table_irrelevant db db' content :
  rewrite db content = rewrite db' content.
Proof.
  unfold rewrite. now rewrite (parse_headers_table_irrelevant db db').
Qed.

(** ** The properties of the rewrite *)

Lemma update_tsv_file_no_header db w tsv_path template_name content :
  files w !! tsv_path = Some content ->
  rewrite db content = None ->
  update_tsv_file db tsv_path template_name w =
    Some (false,
          {| files := files w;
             trace := trace w ++
               [EvRead tsv_path;
                EvPrint (py "  ERROR: No header row found in " ++ tsv_path)] |}).
Proof.
  intros Hfile Hnone.
  unfold update_tsv_file, io_bind, read_text. rewrite Hfile, Hnone.
  unfold print, io_ret. cbn [files trace]. now rewrite <- app_assoc.
Qed.

Lemma update_tsv_file_written db w tsv_path template_name content written :
  files w !! tsv_path = Some content ->
  rewrite db content = Some written ->
  update_tsv_file db tsv_path template_name w =
    Some (true,
          {| files := <[tsv_path := written]> (files w);
             trace := trace w ++
               [EvRead tsv_path; EvWrite tsv_path written] |}).
Proof.
  intros Hfile Hsome.
  unfold update_tsv_file, io_bind, read_text. rewrite Hfile, Hsome.
  unfold write_text, io_ret. cbn [files trace]. now rewrite <- app_assoc.
Qed.

(** C1. On the scenario document (a version comment, a template comment,
    the column names, one sample and a blank line at the end) the rewrite
    gives the column names followed by the three metadata columns, then
    the sample line, and nothing else; [update_tsv_file] writes this text
    to the file and returns [True]. *)
Theorem rewrite_scenario :
  forall db : N -> bool,
    rewrite db scenario_input = Some scenario_output /\
    update_tsv_file db (py "plants.sdrf.tsv") (py "plants") scenario_world =
      Some (true,
            {| files :=
                 <[py "plants.sdrf.tsv" := scenario_output]>
                   (files scenario_world);
               trace := [EvRead (py "plants.sdrf.tsv");
                         EvWrite (py "plants.sdrf.tsv") scenario_output] |}).
Proof.
  intros db.
  assert (H : rewrite db scenario_input = Some scenario_output)
    by (vm_compute; reflexivity).
  split; [exact H|].
  apply (update_tsv_file_written db scenario_world _ _ scenario_input).
  - apply lookup_singleton_eq.
  - exact H.
Qed.

Lemma rewrite_None db content :
  rewrite db content = None <->
  Forall (fun line => is_header_row line = false) (split NL content).
Proof.
  unfold rewrite, locate_header_row. rewrite <- (locate_from_None 0).
  destruct (locate_from 0 (split NL content)) as [[i h]|];
    split; congruence.
Qed.

(** C2. When every line of the file is empty or starts with [#], the
    rewrite has no result and [update_tsv_file] returns [False]: it reads
    the file, prints the error with the path, writes nothing, and the store
    is the one it found. *)
Theorem update_tsv_file_comments_only db w tsv_path template_name content :
  files w !! tsv_path = Some content ->
  Forall (fun line => line = [] \/ startswith (py "#") line = true)
    (split NL content) ->
  rewrite db content = None /\
  update_tsv_file db tsv_path template_name w =
    Some (false,
          {| files := files w;
             trace := trace w ++
               [EvRead tsv_path;
                EvPrint (py "  ERROR: No header row found in " ++ tsv_path)] |}).
Proof.
  intros Hfile Hlines.
  assert (Hnone : rewrite db content = None).
  { apply rewrite_None. eapply Forall_impl; [exact Hlines|].
    intros line [->|Hc]; [reflexivity|now apply is_header_row_comment]. }
  split; [assumption|].
  now apply (update_tsv_file_no_header db w tsv_path template_name content).
Qed.

Lemma update_tsv_file_comments_only_witness :
  rewrite ascii_only comments_only = None /\
  update_tsv_file ascii_only (py "plants.sdrf.tsv") (py "plants")
    comments_only_world =
    Some (false,
          {| files := files comments_only_world;
             trace := trace comments_only_world ++
               [EvRead (py "plants.sdrf.tsv");
                EvPrint (py "  ERROR: No header row found in "
                         ++ py "plants.sdrf.tsv")] |}).
Proof.
  apply (update_tsv_file_comments_only ascii_only comments_only_world
           (py "plants.sdrf.tsv") (py "plants") comments_only).
  - vm_compute. reflexivity.
  - vm_compute.
    repeat (constructor;
            [first [left; reflexivity | right; reflexivity]|]).
    constructor.
Defined.

Lemma is_header_row_false (line : list N) :
  is_header_row line = false <->
  strip line = [] \/ startswith (py "#") line = true.
Proof.
  unfold is_header_row. rewrite andb_false_iff, negb_false_iff.
  destruct (strip line); simpl; intuition congruence.
Qed.

(** C3, as the code has it. The search returns the index and the content
    of the first line that is non-empty once trimmed and does not start
    with [#]; every line before it is blank or a comment, and when there is
    no result every line is.  A line of white space only never passes. *)
Theorem locate_header_row_first_nonblank (lines : list (list N)) :
  match locate_header_row lines with
  | Some (i, h) =>
      lines !! i = Some h /\
      strip h <> [] /\ startswith (py "#") h = false /\
      forall j line, j < i -> lines !! j = Some line ->
        strip line = [] \/ startswith (py "#") line = true
  | None =>
      forall line, line ∈ lines ->
        strip line = [] \/ startswith (py "#") line = true
  end /\
  (forall line, forallb isspace line = true -> is_header_row line = false).
Proof.
  split; [|apply is_header_row_blank].
  unfold locate_header_row.
  destruct (locate_from 0 lines) as [[i h]|] eqn:E.
  - apply locate_from_Some in E as (pre & post & -> & -> & Hpre & Hh).
    apply is_header_row_true in Hh as [Hs Hc]. simpl.
    split; [apply list_lookup_middle; reflexivity|].
    split; [assumption|]. split; [assumption|].
    intros j line Hj Hline. rewrite lookup_app_l in Hline by assumption.
    apply is_header_row_false.
    rewrite Forall_lookup in Hpre. now apply (Hpre j).
  - apply locate_from_None in E. rewrite Forall_forall in E.
    intros line Hin. apply is_header_row_false, E. exact Hin.
Qed.

Lemma locate_header_row_first_nonblank_witness :
  forallb isspace (py "  ") = true /\ is_header_row (py "  ") = false.
Proof.
  split; [reflexivity|].
  apply (proj2 (locate_header_row_first_nonblank blank_then_header)).
  reflexivity.
Defined.

(** C3, as it is worded, fails: with a line of two spaces before the column
    names the code returns the column names at index 1, where the
    untrimmed test would stop at the blank line at index 0. *)
Lemma locate_header_row_not_untrimmed :
  locate_header_row blank_then_header = Some (1, py "source name") /\
  locate_untrimmed blank_then_header = Some (0, py "  ") /\
  locate_header_row blank_then_header <> locate_untrimmed blank_then_header.
Proof. repeat split. vm_compute. discriminate. Qed.

Lemma metadata_columns_distinct :
  VERSION_COLUMN <> TEMPLATE_COLUMN /\ VERSION_COLUMN <> TOOL_COLUMN /\
  TEMPLATE_COLUMN <> TOOL_COLUMN.
Proof.
  repeat split; intros H; apply (f_equal length) in H; vm_compute in H;
    discriminate.
Qed.

Lemma elem_of_appended_columns name (columns : list (list N)) md :
  name ∈ appended_columns columns md ->
  (name = VERSION_COLUMN /\ has_column VERSION_COLUMN columns = false) \/
  (name = TEMPLATE_COLUMN /\ has_column TEMPLATE_COLUMN columns = false) \/
  (name = TOOL_COLUMN /\ has_column TOOL_COLUMN columns = false).
Proof.
  rewrite appended_columns_eq, !elem_of_app.
  destruct (has_column VERSION_COLUMN columns),
    (has_column TEMPLATE_COLUMN columns), (has_column TOOL_COLUMN columns);
    rewrite ?elem_of_nil, ?list_elem_of_singleton, ?elem_of_replicate;
    intuition auto.
Qed.

Lemma build_columns_appended (columns : list (list N)) md :
  build_columns columns md = columns ++ appended_columns columns md.
Proof. now rewrite appended_columns_eq, build_columns_eq. Qed.

(** C7, as the code has it. The presence checks are by substring: when an
    existing column contains the name of a metadata column, be it with more
    text around it, no column of that name is appended; so for the version,
    the template and the annotation-tool column alike. *)
Theorem presence_check_by_substring (columns : list (list N)) md col :
  col ∈ columns ->
  (contains VERSION_COLUMN col = true ->
   VERSION_COLUMN ∉ appended_columns columns md) /\
  (contains TEMPLATE_COLUMN col = true ->
   TEMPLATE_COLUMN ∉ appended_columns columns md) /\
  (contains TOOL_COLUMN col = true ->
   TOOL_COLUMN ∉ appended_columns columns md) /\
  build_columns columns md = columns ++ appended_columns columns md.
Proof.
  intros Hin.
  destruct metadata_columns_distinct as (Hvt & Hva & Hta).
  repeat split; [..|apply build_columns_appended];
    intros Hsub Happ;
    (assert (Hhas : forall name, contains name col = true ->
                      has_column name columns = true)
       by (intros name Hn; apply has_column_spec; eauto));
    apply Hhas in Hsub;
    apply elem_of_appended_columns in Happ
      as [[? ?]|[[? ?]|[? ?]]]; congruence.
Qed.

Lemma presence_check_by_substring_witness :
  VERSION_COLUMN ∉
    appended_columns [py "source name"; py "old comment[sdrf version] (v1)"]
      {| version := py "v1.1.0"; templates := [py "human"] |}.
Proof.
  apply (presence_check_by_substring
           [py "source name"; py "old comment[sdrf version] (v1)"]
           {| version := py "v1.1.0"; templates := [py "human"] |}
           (py "old comment[sdrf version] (v1)")).
  - right. left.
  - vm_compute. reflexivity.
Defined.

(** C7, as it is worded, fails in its example: the name the check looks for
    ends with the closing bracket, so [comment[sdrf version range]] does
    not contain it and the version column is appended all the same. *)
Lemma version_range_column_not_matched :
  contains VERSION_COLUMN (py "comment[sdrf version range]") = false /\
  build_columns [py "comment[sdrf version range]"]
    {| version := py "v1.1.0"; templates := [] |} =
  [py "comment[sdrf version range]"; VERSION_COLUMN; TEMPLATE_COLUMN;
   TOOL_COLUMN].
Proof. split; vm_compute; reflexivity. Qed.

(** C8. When no existing column passes the template check, one template
    column is appended for each entry of [templates], and one when there is
    none.  In every case the appended columns come after all existing ones
    in the order version, template, tool. *)
Theorem build_columns_template_per_entry (columns : list (list N)) md :
  (has_column TEMPLATE_COLUMN columns = false ->
   build_columns columns md =
     columns
     ++ (if has_column VERSION_COLUMN columns then [] else [VERSION_COLUMN])
     ++ replicate
          (match templates md with
           | [] => 1
           | _ :: _ => length (templates md)
           end) TEMPLATE_COLUMN
     ++ (if has_column TOOL_COLUMN columns then [] else [TOOL_COLUMN])) /\
  exists n,
    build_columns columns md =
      columns
      ++ (if has_column VERSION_COLUMN columns then [] else [VERSION_COLUMN])
      ++ replicate n TEMPLATE_COLUMN
      ++ (if has_column TOOL_COLUMN columns then [] else [TOOL_COLUMN]).
Proof.
  split.
  - intros H. rewrite build_columns_eq, H.
    destruct (templates md); reflexivity.
  - rewrite build_columns_eq.
    destruct (has_column TEMPLATE_COLUMN columns); [now exists 0|eauto].
Qed.

Lemma build_columns_template_per_entry_witness :
  build_columns [py "source name"; py "comment[sdrf version]"]
    {| version := py "2.3.0"; templates := [py "human"; py "cell-lines"] |} =
  [py "source name"; py "comment[sdrf version]"; TEMPLATE_COLUMN;
   TEMPLATE_COLUMN; TOOL_COLUMN].
Proof.
  apply (proj1 (build_columns_template_per_entry
                  [py "source name"; py "comment[sdrf version]"]
                  {| version := py "2.3.0";
                     templates := [py "human"; py "cell-lines"] |})).
  vm_compute. reflexivity.
Defined.

Lemma parse_fold_version_default db (lines : list (list N)) md :
  Forall (fun line => startswith (py "#version=") line = false) lines ->
  version (fold_left (parse_line db) lines md) = version md.
Proof.
  intros H. revert md. induction H as [|line lines Hl _ IH]; intros md;
    [reflexivity|].
  simpl. rewrite IH.
  destruct (parse_line_cases db md line)
    as [->|[[Hv _]|[_ [value ->]]]]; [reflexivity|congruence|reflexivity].
Qed.

(** C6. On the four lines of the example [parse_headers] returns version
    2.3.0 and the templates human and cell-lines, in this order, whatever
    the [#bogus=] line says; and on a document none of whose lines starts
    with [#version=] it returns the default version v1.1.0. *)
Theorem parse_headers_example_and_default :
  (forall db,
     parse_headers db headers_example =
       {| version := py "2.3.0";
          templates := [py "human"; py "cell-lines"] |}) /\
  (forall db content,
     Forall (fun line => startswith (py "#version=") line = false)
       (split NL content) ->
     version (parse_headers db content) = py "v1.1.0").
Proof.
  split.
  - intros db. vm_compute. reflexivity.
  - intros db content H. unfold parse_headers.
    now rewrite parse_fold_version_default.
Qed.

Lemma parse_headers_example_and_default_witness :
  version (parse_headers ascii_only
             (py "#template=human" ++ [NL] ++ py "source name")) =
    py "v1.1.0".
Proof.
  apply (proj2 parse_headers_example_and_default ascii_only
           (py "#template=human" ++ [NL] ++ py "source name")).
  vm_compute. repeat constructor.
Defined.

Lemma parse_fold_filter db (lines : list (list N)) md :
  fold_left (parse_line db) (List.filter (startswith (py "#")) lines) md =
    fold_left (parse_line db) lines md.
Proof.
  revert md. induction lines as [|line lines IH]; intros md; [reflexivity|].
  cbn [List.filter]. destruct (startswith (py "#") line) eqn:E;
    cbn [fold_left].
  - apply IH.
  - rewrite parse_line_no_comment by assumption. apply IH.
Qed.

(** C4, as the code has it. The metadata comes from the comment lines of
    the whole document, below the column names as well as above: it is the
    metadata of the lines that start with [#], in their order, and no other
    line has a part in it. *)
Theorem parse_headers_all_comment_lines db content :
  parse_headers db content =
    parse_headers db
      (join [NL] (List.filter (startswith (py "#")) (split NL content))).
Proof.
  unfold parse_headers.
  rewrite <- (parse_fold_filter db (split NL content)).
  pose proof (split_sep_free NL content) as Hfree.
  destruct (List.filter (startswith (py "#")) (split NL content))
    as [|c cs] eqn:E.
  - reflexivity.
  - rewrite split_join; [reflexivity|discriminate|].
    rewrite <- E. rewrite Forall_forall in *. intros line Hin.
    apply Hfree. apply list_elem_of_In in Hin.
    apply filter_In in Hin as [Hin _]. now apply list_elem_of_In.
Qed.

(** C4, as it is worded, fails: a [#version=] line below the column names
    sets the version, where the lines above them alone give the default. *)
Lemma parse_headers_reads_below_header :
  locate_header_row (split NL header_then_version) =
    Some (0, py "source name") /\
  parse_headers ascii_only header_then_version =
    {| version := py "9.9.9"; templates := [] |} /\
  metadata_before_header ascii_only header_then_version =
    {| version := py "v1.1.0"; templates := [] |} /\
  parse_headers ascii_only (py "source name") =
    {| version := py "v1.1.0"; templates := [] |}.
Proof. repeat split. Qed.

Lemma rewrite_Some db content out :
  rewrite db content = Some out ->
  exists i h,
    locate_header_row (split NL content) = Some (i, h) /\
    out = write_body
            (join [TAB]
               (build_columns (split TAB h) (parse_headers db content)))
            (drop (i + 1) (split NL content)).
Proof.
  unfold rewrite.
  destruct (locate_header_row (split NL content)) as [[i h]|];
    [|discriminate].
  intros [= <-]. eauto.
Qed.

Lemma appended_columns_free (columns : list (list N)) md name :
  name ∈ appended_columns columns md -> (NL ∉ name) /\ (TAB ∉ name).
Proof.
  intros H.
  apply elem_of_appended_columns in H as [[-> _]|[[-> _]|[-> _]]];
    split; apply (bool_decide_unpack _); vm_compute; exact I.
Qed.

(** The new header line is the old one with the appended names after it,
    a tab before each. *)
Lemma new_header_line_eq (h : list N) md :
  join [TAB] (build_columns (split TAB h) md) =
    h ++ match appended_columns (split TAB h) md with
         | [] => []
         | _ :: _ => TAB :: join [TAB] (appended_columns (split TAB h) md)
         end.
Proof.
  rewrite build_columns_appended.
  destruct (appended_columns (split TAB h) md) as [|a app] eqn:E.
  - now rewrite !app_nil_r, join_split.
  - rewrite join_app by (apply split_nonempty || discriminate).
    now rewrite join_split.
Qed.

Lemma new_header_line_free (h : list N) md :
  NL ∉ h -> NL ∉ join [TAB] (build_columns (split TAB h) md).
Proof.
  intros Hh Hin.
  apply elem_of_join in Hin as [Hin|(col & Hcol & Hin)].
  - apply list_elem_of_singleton in Hin. discriminate.
  - rewrite build_columns_appended, elem_of_app in Hcol.
    destruct Hcol as [Hcol|Hcol].
    + apply Hh. now apply (elem_of_split TAB h col).
    + now apply appended_columns_free in Hcol as [? _].
Qed.

Lemma header_row_in_lines (lines : list (list N)) i h :
  locate_header_row lines = Some (i, h) ->
  lines !! i = Some h /\ is_header_row h = true.
Proof.
  intros E. apply locate_from_Some in E as (pre & post & -> & -> & _ & Hh).
  split; [|assumption]. now apply list_lookup_middle.
Qed.

(** The lines of the text written: the new header line, the lines after
    the old header row that are not blank, and the empty field after the
    last newline. *)
Lemma rewrite_lines db content out i h :
  locate_header_row (split NL content) = Some (i, h) ->
  rewrite db content = Some out ->
  split NL out =
    join [TAB] (build_columns (split TAB h) (parse_headers db content))
    :: List.filter (fun d => truthy (strip d))
         (drop (i + 1) (split NL content)) ++ [[]].
Proof.
  intros E Hout. unfold rewrite in Hout. rewrite E in Hout.
  injection Hout as <-. rewrite write_body_eq.
  pose proof (split_sep_free NL content) as Hfree.
  apply header_row_in_lines in E as [Hi _].
  rewrite split_app_sep.
  - f_equal. apply split_terminated.
    rewrite Forall_forall in *. intros d Hd.
    apply list_elem_of_In, filter_In in Hd as [Hd _].
    apply Hfree. apply list_elem_of_In in Hd.
    exact (subseteq_drop (i + 1) _ d Hd).
  - apply new_header_line_free.
    rewrite Forall_forall in Hfree. apply Hfree.
    eapply list_elem_of_lookup_2. exact Hi.
Qed.

Lemma new_header_line_is_header_row (h : list N) md :
  is_header_row h = true ->
  is_header_row (join [TAB] (build_columns (split TAB h) md)) = true.
Proof.
  unfold is_header_row. rewrite !andb_true_iff, !negb_true_iff.
  intros [Hs Hc]. rewrite new_header_line_eq. split.
  - now apply truthy_strip_app.
  - change (py "#") with [HASH] in *.
    rewrite startswith_char_app; [assumption|].
    now apply truthy_strip_nonempty.
Qed.

(** C5, as the code has it. When the rewrite succeeds, the first line of
    the output, the header, does not start with [#], and every line of the
    output that does is a line of the input below the column-header row:
    the comment lines above the header row are gone, those below it stay as
    data. *)
Theorem rewrite_comment_lines_from_data db content out i h :
  locate_header_row (split NL content) = Some (i, h) ->
  rewrite db content = Some out ->
  startswith (py "#") (hd [] (split NL out)) = false /\
  forall line,
    line ∈ split NL out -> startswith (py "#") line = true ->
    exists j, i < j /\ split NL content !! j = Some line.
Proof.
  intros E Hout. rewrite (rewrite_lines db content out i h E Hout).
  apply header_row_in_lines in E as [_ Hh].
  pose proof (new_header_line_is_header_row h (parse_headers db content) Hh)
    as Hnew.
  apply is_header_row_true in Hnew as [_ Hnew].
  split; [exact Hnew|].
  intros line Hin Hc. rewrite elem_of_cons, elem_of_app in Hin.
  destruct Hin as [->|[Hin|Hin]].
  - congruence.
  - apply list_elem_of_In, filter_In in Hin as [Hin _].
    apply list_elem_of_In, list_elem_of_lookup in Hin as [k Hk].
    rewrite lookup_drop in Hk. exists (i + 1 + k). split; [lia|exact Hk].
  - apply list_elem_of_singleton in Hin as ->. discriminate.
Qed.

Lemma rewrite_comment_lines_from_data_witness :
  startswith (py "#") (hd [] (split NL scenario_output)) = false /\
  forall line,
    line ∈ split NL scenario_output -> startswith (py "#") line = true ->
    exists j, 2 < j /\ split NL scenario_input !! j = Some line.
Proof.
  apply (rewrite_comment_lines_from_data ascii_only scenario_input
           scenario_output 2
           (py "source name" ++ [TAB] ++ py "characteristics[organism]")).
  - vm_compute. reflexivity.
  - vm_compute. reflexivity.
Defined.

(** C5, as it is worded, fails: a comment line below the column names is
    written out as it stands, so a line of the output starts with [#]. *)
Lemma rewrite_keeps_comment_below_header :
  rewrite ascii_only header_then_comment = Some header_then_comment_output /\
  split NL header_then_comment_output !! 1 = Some (py "#note") /\
  startswith (py "#") (py "#note") = true.
Proof. repeat split. Qed.

Lemma has_column_self name (more : list (list N)) :
  has_column name (name :: more) = true.
Proof. unfold has_column. simpl existsb. now rewrite contains_refl. Qed.

(** After the column step each of the three checks passes. *)
Lemma has_column_build_columns (columns : list (list N)) md :
  has_column VERSION_COLUMN (build_columns columns md) = true /\
  has_column TEMPLATE_COLUMN (build_columns columns md) = true /\
  has_column TOOL_COLUMN (build_columns columns md) = true.
Proof.
  rewrite build_columns_eq, !has_column_app.
  assert (Hmax : exists k, Nat.max 1 (length (templates md)) = S k)
    by (destruct (length (templates md)); simpl; eauto).
  destruct Hmax as [k ->].
  destruct (has_column VERSION_COLUMN columns) eqn:Ev,
    (has_column TEMPLATE_COLUMN columns) eqn:Et,
    (has_column TOOL_COLUMN columns) eqn:Ea;
    cbn [replicate]; rewrite ?has_column_self, ?orb_true_r;
    repeat split; reflexivity.
Qed.

(** The column step changes nothing where the three checks pass. *)
Lemma build_columns_fixed (columns : list (list N)) md md' :
  build_columns (build_columns columns md) md' = build_columns columns md.
Proof.
  destruct (has_column_build_columns columns md) as (Hv & Ht & Ha).
  rewrite (build_columns_eq (build_columns columns md)), Hv, Ht, Ha.
  now rewrite !app_nil_r.
Qed.

Lemma build_columns_free (h : list N) md :
  Forall (fun field => TAB ∉ field) (build_columns (split TAB h) md).
Proof.
  rewrite build_columns_appended, Forall_app. split.
  - apply split_sep_free.
  - rewrite Forall_forall. intros name Hn.
    now apply appended_columns_free in Hn as [_ ?].
Qed.

Lemma build_columns_nonempty (h : list N) md :
  build_columns (split TAB h) md <> [].
Proof.
  rewrite build_columns_appended.
  destruct (split_cons_shape TAB h) as (f & fs & ->). discriminate.
Qed.

Lemma filter_nonblank_terminated (kept : list (list N)) :
  List.filter (fun d => truthy (strip d))
    (List.filter (fun d => truthy (strip d)) kept ++ [[]]) =
  List.filter (fun d => truthy (strip d)) kept.
Proof.
  rewrite List.filter_app, filter_all. simpl. apply app_nil_r.
Qed.

(** C9. The rewrite of a rewritten document is that document: its first
    line is the header row, the three checks pass on its columns, so no
    column is appended, and its data lines are written as they are. *)
Theorem rewrite_idempotent db content out :
  rewrite db content = Some out -> rewrite db out = Some out.
Proof.
  intros Hout.
  destruct (rewrite_Some db content out Hout) as (i & h & E & Hbody).
  pose proof (rewrite_lines db content out i h E Hout) as Hlines.
  apply header_row_in_lines in E as [_ Hh].
  set (md := parse_headers db content) in *.
  set (new_header := join [TAB] (build_columns (split TAB h) md)) in *.
  set (kept := List.filter (fun d => truthy (strip d))
                 (drop (i + 1) (split NL content))) in *.
  assert (Hnew : is_header_row new_header = true)
    by now apply new_header_line_is_header_row.
  unfold rewrite. rewrite Hlines.
  unfold locate_header_row. cbn [locate_from]. rewrite Hnew.
  f_equal. rewrite Hbody, !write_body_eq.
  assert (Hcols : split TAB new_header = build_columns (split TAB h) md).
  { apply split_join; [apply build_columns_nonempty|apply build_columns_free]. }
  rewrite Hcols, build_columns_fixed. fold new_header.
  cbn [drop Nat.add]. fold kept. rewrite drop_0.
  unfold kept. now rewrite filter_nonblank_terminated.
Qed.

Lemma rewrite_idempotent_witness :
  rewrite ascii_only scenario_output = Some scenario_output.
Proof.
  apply (rewrite_idempotent ascii_only scenario_input scenario_output).
  vm_compute. reflexivity.
Defined.

Lemma parse_fold_templates_rel db (lines lines' : list (list N)) md md' :
  Forall2 same_up_to_version lines lines' ->
  templates md = templates md' ->
  templates (fold_left (parse_line db) lines md) =
    templates (fold_left (parse_line db) lines' md').
Proof.
  intros H. revert md md'.
  induction H as [|line line' lines lines' Hl _ IH]; intros md md' Ht;
    [assumption|].
  simpl. apply IH. destruct Hl as [<-|[Hv Hv']].
  - now apply parse_line_templates_congr.
  - now rewrite !parse_line_version_line_templates.
Qed.

Lemma same_up_to_version_header_row (line line' : list N) :
  same_up_to_version line line' ->
  is_header_row line = false -> is_header_row line' = false.
Proof.
  intros [<-|[_ Hv]] H; [assumption|].
  apply is_header_row_comment. now apply version_line_comment.
Qed.

Lemma build_columns_template_count (columns : list (list N)) md md' :
  length (templates md) = length (templates md') ->
  build_columns columns md = build_columns columns md'.
Proof. intros H. now rewrite !build_columns_eq, H. Qed.

(** C10, as the code has it. Two documents that differ only in the values
    of [#version=] lines above the column-header row are rewritten to the
    same text; and the column step uses the metadata through the number of
    templates alone, so the version parsed is not written. *)
Theorem rewrite_independent_of_version
    db content content' (pre pre' rest : list (list N)) :
  split NL content = pre ++ rest ->
  split NL content' = pre' ++ rest ->
  Forall2 same_up_to_version pre pre' ->
  Forall (fun line => is_header_row line = false) pre ->
  rewrite db content = rewrite db content' /\
  forall columns md md',
    length (templates md) = length (templates md') ->
    build_columns columns md = build_columns columns md'.
Proof.
  intros Hc Hc' Hrel Hpre.
  split; [|apply build_columns_template_count].
  assert (Hpre' : Forall (fun line => is_header_row line = false) pre').
  { clear Hc Hc'. induction Hrel as [|l l' ls ls' Hl _ IH]; [constructor|].
    inversion Hpre; subst. constructor; [|now apply IH].
    now apply (same_up_to_version_header_row l l'). }
  assert (Hlen : length pre = length pre') by now apply Forall2_length in Hrel.
  assert (Ht : templates (parse_headers db content) =
               templates (parse_headers db content')).
  { unfold parse_headers. rewrite Hc, Hc'.
    apply parse_fold_templates_rel; [|reflexivity].
    apply Forall2_app; [assumption|].
    apply Forall_Forall2_diag, Forall_forall. intros line _. now left. }
  unfold rewrite, locate_header_row. rewrite Hc, Hc'.
  rewrite !locate_from_skip by assumption. rewrite <- Hlen.
  rewrite (locate_from_shift (0 + length pre) rest).
  destruct (locate_from 0 rest) as [[j h]|]; [|reflexivity].
  f_equal.
  rewrite (build_columns_template_count _ _ (parse_headers db content'))
    by now rewrite Ht.
  f_equal.
  replace (0 + length pre + j + 1) with (length pre + (j + 1)) by lia.
  rewrite drop_app_add. rewrite Hlen at 1. now rewrite drop_app_add.
Qed.

Lemma rewrite_independent_of_version_witness :
  rewrite ascii_only (version_above_header (py "1.0.0")) =
    rewrite ascii_only (version_above_header (py "2.0.0")).
Proof.
  apply (rewrite_independent_of_version ascii_only
           (version_above_header (py "1.0.0"))
           (version_above_header (py "2.0.0"))
           [py "#version=1.0.0"] [py "#version=2.0.0"]
           [py "source name"; py "sample1"; []]).
  - vm_compute. reflexivity.
  - vm_compute. reflexivity.
  - constructor; [right; split; reflexivity|constructor].
  - constructor; [reflexivity|constructor].
Defined.

(** C10, as it is worded, fails: two documents that differ only in the
    value of a [#version=] line below the column names are rewritten to
    different texts, the line being kept as data. *)
Lemma rewrite_keeps_version_below_header :
  Forall2 same_up_to_version
    (split NL (version_below_header (py "1.0.0")))
    (split NL (version_below_header (py "2.0.0"))) /\
  rewrite ascii_only (version_below_header (py "1.0.0")) <>
    rewrite ascii_only (version_below_header (py "2.0.0")).
Proof.
  split.
  - vm_compute.
    constructor; [now left|].
    constructor; [right; split; reflexivity|].
    constructor; [now left|constructor].
  - vm_compute. discriminate.
Qed.

(** ** Further properties of [parse_headers] *)

Lemma split_snoc sep (s line : list N) :
  sep ∉ line -> split sep (s ++ sep :: line) = split sep s ++ [line].
Proof.
  intros Hline. induction s as [|c s IH].
  - simpl app. rewrite split_cons_eq. now rewrite split_free.
  - rewrite <- app_comm_cons.
    destruct (N.eqb_spec c sep) as [->|Hc].
    + rewrite !split_cons_eq, IH. reflexivity.
    + rewrite !split_cons_ne by assumption. rewrite IH.
      destruct (split_cons_shape sep s) as (f & fs & ->). reflexivity.
Qed.

Lemma span_all (p : N -> bool) (s : list N) :
  Forall (fun c => p c = true) s -> span p s = (s, []).
Proof.
  induction 1 as [|c s Hc _ IH]; [reflexivity|].
  simpl. now rewrite Hc, IH.
Qed.

Lemma span_is_dot_free (value : list N) :
  NL ∉ value -> fst (span is_dot value) = value.
Proof.
  intros H. rewrite span_all; [reflexivity|].
  rewrite Forall_forall. intros c Hc. unfold is_dot.
  apply negb_true_iff, N.eqb_neq. intros ->. contradiction.
Qed.

(** The metadata after one more line at the end of the document. *)
Lemma parse_headers_snoc db content line :
  NL ∉ line ->
  parse_headers db (content ++ NL :: line) =
    parse_line db (parse_headers db content) line.
Proof.
  intros H. unfold parse_headers.
  now rewrite split_snoc, fold_left_app by assumption.
Qed.

Lemma re_match_version db value :
  re_match db (py "#version=" ++ value) =
    if truthy (fst (span is_dot value))
    then Some (py "version", fst (span is_dot value)) else None.
Proof. reflexivity. Qed.

Lemma re_match_template db value :
  re_match db (py "#template=" ++ value) =
    if truthy (fst (span is_dot value))
    then Some (py "template", fst (span is_dot value)) else None.
Proof. reflexivity. Qed.

Lemma parse_line_version db md value :
  parse_line db md (py "#version=" ++ value) =
    if truthy (fst (span is_dot value))
    then {| version := fst (span is_dot value); templates := templates md |}
    else md.
Proof.
  unfold parse_line.
  change (startswith (py "#") (py "#version=" ++ value)) with true.
  cbv iota. rewrite re_match_version.
  destruct (truthy (fst (span is_dot value))); reflexivity.
Qed.

Lemma parse_line_template db md value :
  parse_line db md (py "#template=" ++ value) =
    if truthy (fst (span is_dot value))
    then {| version := version md;
            templates := templates md ++ [fst (span is_dot value)] |}
    else md.
Proof.
  unfold parse_line.
  change (startswith (py "#") (py "#template=" ++ value)) with true.
  cbv iota. rewrite re_match_template.
  destruct (truthy (fst (span is_dot value))); reflexivity.
Qed.

Lemma literal_line_free (prefix value : list N) :
  NL ∉ prefix -> NL ∉ value -> NL ∉ prefix ++ value.
Proof. rewrite elem_of_app. tauto. Qed.

(** X1. A [#version=] line at the end of the document decides the version:
    the value is the rest of the line, untrimmed, and replaces whatever
    version the lines before gave; the templates are kept.  With nothing
    after the [=] the line is ignored. *)
Theorem parse_headers_last_version_wins db content value :
  NL ∉ value ->
  parse_headers db (content ++ NL :: py "#version=" ++ value) =
    if truthy value
    then {| version := value;
            templates := templates (parse_headers db content) |}
    else parse_headers db content.
Proof.
  intros H. rewrite parse_headers_snoc.
  - now rewrite parse_line_version, span_is_dot_free.
  - apply literal_line_free; [|assumption].
    apply (bool_decide_unpack _). vm_compute. exact I.
Qed.

Lemma parse_headers_last_version_wins_witness :
  parse_headers ascii_only
    (headers_example ++ NL :: py "#version=" ++ py " 3.0 = beta ") =
    {| version := py " 3.0 = beta ";
       templates := [py "human"; py "cell-lines"] |}.
Proof.
  apply (parse_headers_last_version_wins ascii_only headers_example
           (py " 3.0 = beta ")).
  apply (bool_decide_unpack _). vm_compute. exact I.
Defined.

(** X2. A [#template=] line at the end of the document adds its value,
    untrimmed, after the templates of the lines before, be it there
    already or not, and leaves the version; with nothing after the [=] the
    line is ignored. *)
Theorem parse_headers_template_appended db content value :
  NL ∉ value ->
  parse_headers db (content ++ NL :: py "#template=" ++ value) =
    if truthy value
    then {| version := version (parse_headers db content);
            templates := templates (parse_headers db content) ++ [value] |}
    else parse_headers db content.
Proof.
  intros H. rewrite parse_headers_snoc.
  - now rewrite parse_line_template, span_is_dot_free.
  - apply literal_line_free; [|assumption].
    apply (bool_decide_unpack _). vm_compute. exact I.
Qed.

Lemma parse_headers_template_appended_witness :
  parse_headers ascii_only
    (headers_example ++ NL :: py "#template=" ++ py "human") =
    {| version := py "2.3.0";
       templates := [py "human"; py "cell-lines"; py "human"] |}.
Proof.
  apply (parse_headers_template_appended ascii_only headers_example
           (py "human")).
  apply (bool_decide_unpack _). vm_compute. exact I.
Defined.

(** X3. A line that starts neither with [#version=] nor with [#template=]
    has no part in the metadata: a comment with another key, or with the
    key in another case, or with white space before the [#], and any line
    of data. *)
Theorem parse_headers_other_line_ignored db content line :
  NL ∉ line ->
  startswith (py "#version=") line = false ->
  startswith (py "#template=") line = false ->
  parse_headers db (content ++ NL :: line) = parse_headers db content.
Proof.
  intros H Hv Ht. rewrite parse_headers_snoc by assumption.
  destruct (parse_line_cases db (parse_headers db content) line)
    as [->|[[? _]|[? _]]]; [reflexivity|congruence..].
Qed.

Lemma parse_headers_other_line_ignored_witness :
  parse_headers ascii_only (headers_example ++ NL :: py "#Version=9") =
    parse_headers ascii_only headers_example.
Proof.
  apply (parse_headers_other_line_ignored ascii_only headers_example
           (py "#Version=9")).
  - apply (bool_decide_unpack _). vm_compute. exact I.
  - reflexivity.
  - reflexivity.
Defined.

(** ** Further properties of the header search and of the column step *)

Lemma strip_nil_iff (line : list N) :
  strip line = [] <-> forallb isspace line = true.
Proof.
  pose proof (truthy_strip line) as H.
  destruct (strip line), (forallb isspace line); simpl in H;
    split; congruence.
Qed.

(** X4. The rewrite has no result exactly when no line can be the header
    row: every line is white space only, the empty line included, or
    starts with [#]. *)
Theorem rewrite_fails_iff_no_header db content :
  rewrite db content = None <->
  Forall (fun line =>
            forallb isspace line = true \/ startswith (py "#") line = true)
    (split NL content).
Proof.
  rewrite rewrite_None. apply Forall_iff. intros line.
  now rewrite is_header_row_false, strip_nil_iff.
Qed.

(** X5. A comment line with white space before the [#] is no comment for
    the script: [parse_headers] ignores it, and the header search takes it
    as the header row when it comes first. *)
Theorem indented_comment_is_header_row
    db md (ws line : list N) (rest : list (list N)) :
  ws <> [] ->
  forallb isspace ws = true ->
  startswith (py "#") line = true ->
  parse_line db md (ws ++ line) = md /\
  locate_header_row ((ws ++ line) :: rest) = Some (0, ws ++ line).
Proof.
  intros Hne Hws Hc.
  apply startswith_elim in Hc as [tl ->].
  destruct ws as [|c ws]; [congruence|]. simpl in Hws.
  apply andb_true_iff in Hws as [Hcsp Hws].
  assert (Hstart : startswith (py "#") ((c :: ws) ++ py "#" ++ tl) = false).
  { change (startswith (py "#") ((c :: ws) ++ py "#" ++ tl))
      with ((35 =? c)%N && true).
    destruct (N.eqb_spec 35 c) as [<-|]; [discriminate|reflexivity]. }
  split.
  - now apply parse_line_no_comment.
  - unfold locate_header_row. cbn [locate_from].
    replace (is_header_row ((c :: ws) ++ py "#" ++ tl)) with true;
      [reflexivity|].
    symmetry. apply is_header_row_true. split; [|exact Hstart].
    apply truthy_true. rewrite truthy_strip, forallb_app.
    simpl. rewrite Hcsp, Hws. reflexivity.
Qed.

Lemma indented_comment_is_header_row_witness :
  parse_line ascii_only {| version := py "v1.1.0"; templates := [] |}
    (py "  " ++ py "#version=2.0.0") =
    {| version := py "v1.1.0"; templates := [] |} /\
  locate_header_row ((py "  " ++ py "#version=2.0.0") :: [py "source name"]) =
    Some (0, py "  " ++ py "#version=2.0.0").
Proof.
  apply (indented_comment_is_header_row ascii_only
           {| version := py "v1.1.0"; templates := [] |}
           (py "  ") (py "#version=2.0.0") [py "source name"]).
  - discriminate.
  - reflexivity.
  - reflexivity.
Defined.

(** X6. The column step adds nothing the second time, whatever metadata it
    is given then: each of the three checks finds the column it looks
    for. *)
Theorem build_columns_idempotent (columns : list (list N)) md md' :
  build_columns (build_columns columns md) md' = build_columns columns md.
Proof.
  destruct (has_column_build_columns columns md) as (Hv & Ht & Ha).
  rewrite (build_columns_eq (build_columns columns md) md').
  rewrite Hv, Ht, Ha. now rewrite !app_nil_r.
Qed.

(** X7. The column step returns the columns as they are exactly when all
    three checks pass; when one fails, a column is appended. *)
Theorem build_columns_unchanged_iff (columns : list (list N)) md :
  build_columns columns md = columns <->
  has_column VERSION_COLUMN columns = true /\
  has_column TEMPLATE_COLUMN columns = true /\
  has_column TOOL_COLUMN columns = true.
Proof.
  rewrite build_columns_eq. split.
  - intros H.
    assert (H' : forall x : list (list N), columns ++ x = columns -> x = [])
      by (intros x Hx; apply (app_inv_head columns); now rewrite app_nil_r).
    apply H' in H. clear H'.
    destruct (has_column VERSION_COLUMN columns); [|discriminate].
    destruct (has_column TEMPLATE_COLUMN columns).
    + destruct (has_column TOOL_COLUMN columns); [auto|discriminate].
    + destruct (length (templates md)); discriminate.
  - intros (-> & -> & ->). apply app_nil_r.
Qed.

Lemma join_cons_concat sep (p : list N) (parts : list (list N)) :
  join [sep] (p :: parts) = p ++ concat (map (cons sep) parts).
Proof.
  revert p. induction parts as [|q parts IH]; intros p.
  - simpl. now rewrite app_nil_r.
  - rewrite join_char_cons, IH. reflexivity.
Qed.

(** X8. The first line of the text written is the old header row as it
    stands, followed by a tab and the name for each appended column: the
    existing columns keep their names, their order and their text. *)
Theorem rewrite_header_line db content out i h :
  locate_header_row (split NL content) = Some (i, h) ->
  rewrite db content = Some out ->
  hd [] (split NL out) =
    h ++ concat (map (cons TAB)
                   (appended_columns (split TAB h)
                      (parse_headers db content))).
Proof.
  intros E Hout. rewrite (rewrite_lines db content out i h E Hout).
  cbn [hd]. rewrite new_header_line_eq.
  destruct (appended_columns _ _) as [|a app]; [reflexivity|].
  now rewrite join_cons_concat.
Qed.

Lemma rewrite_header_line_witness :
  hd [] (split NL scenario_output) =
    (py "source name" ++ [TAB] ++ py "characteristics[organism]")
    ++ concat (map (cons TAB)
                 (appended_columns
                    (split TAB
                       (py "source name" ++ [TAB]
                        ++ py "characteristics[organism]"))
                    (parse_headers ascii_only scenario_input))).
Proof.
  apply (rewrite_header_line ascii_only scenario_input scenario_output 2).
  - vm_compute. reflexivity.
  - vm_compute. reflexivity.
Defined.

(** X9. The lines written after the header line are the lines of the input
    below the header row that are not blank, each as it stands and in the
    order of the input; no line of the output is blank, and the text ends
    with a newline. *)
Theorem rewrite_data_lines db content out i h :
  locate_header_row (split NL content) = Some (i, h) ->
  rewrite db content = Some out ->
  tl (split NL out) =
    List.filter (fun d => truthy (strip d))
      (drop (i + 1) (split NL content)) ++ [[]] /\
  exists body,
    split NL out = body ++ [[]] /\
    Forall (fun line => strip line <> []) body.
Proof.
  intros E Hout. rewrite (rewrite_lines db content out i h E Hout).
  split; [reflexivity|].
  eexists (_ :: _). split; [reflexivity|].
  constructor.
  - apply header_row_in_lines in E as [_ Hh].
    apply (new_header_line_is_header_row h (parse_headers db content)) in Hh.
    now apply is_header_row_true in Hh.
  - rewrite Forall_forall. intros d Hd.
    apply list_elem_of_In, filter_In in Hd as [_ Hd].
    now apply truthy_true.
Qed.

Lemma rewrite_data_lines_witness :
  tl (split NL scenario_output) =
    List.filter (fun d => truthy (strip d))
      (drop (2 + 1) (split NL scenario_input)) ++ [[]] /\
  exists body,
    split NL scenario_output = body ++ [[]] /\
    Forall (fun line => strip line <> []) body.
Proof.
  apply (rewrite_data_lines ascii_only scenario_input scenario_output 2
           (py "source name" ++ [TAB] ++ py "characteristics[organism]")).
  - vm_compute. reflexivity.
  - vm_compute. reflexivity.
Defined.

(** X10. What stands above the header row reaches the output through the
    number of templates alone: two documents with the same lines from the
    header row on and as many templates are rewritten to the same text,
    whatever blank lines and comments come first. *)
Theorem rewrite_ignores_lines_above_header
    db content content' (pre pre' rest : list (list N)) :
  split NL content = pre ++ rest ->
  split NL content' = pre' ++ rest ->
  Forall (fun line => is_header_row line = false) pre ->
  Forall (fun line => is_header_row line = false) pre' ->
  length (templates (parse_headers db content)) =
    length (templates (parse_headers db content')) ->
  rewrite db content = rewrite db content'.
Proof.
  intros Hc Hc' Hpre Hpre' Hlen.
  unfold rewrite, locate_header_row. rewrite Hc, Hc'.
  rewrite !locate_from_skip by assumption.
  rewrite (locate_from_shift (0 + length pre) rest),
    (locate_from_shift (0 + length pre') rest).
  destruct (locate_from 0 rest) as [[j h]|]; [|reflexivity].
  f_equal.
  rewrite (build_columns_template_count _ _ (parse_headers db content'))
    by assumption.
  f_equal.
  replace (0 + length pre + j + 1) with (length pre + (j + 1)) by lia.
  replace (0 + length pre' + j + 1) with (length pre' + (j + 1)) by lia.
  now rewrite !drop_app_add.
Qed.

Lemma rewrite_ignores_lines_above_header_witness :
  rewrite ascii_only
    (py "#template=human" ++ [NL] ++ py "source name" ++ [NL] ++ py "s1") =
  rewrite ascii_only
    (py "# note" ++ [NL] ++ [NL] ++ py "#template=plants" ++ [NL]
     ++ py "source name" ++ [NL] ++ py "s1").
Proof.
  apply (rewrite_ignores_lines_above_header ascii_only _ _
           [py "#template=human"] [py "# note"; []; py "#template=plants"]
           [py "source name"; py "s1"]).
  - vm_compute. reflexivity.
  - vm_compute. reflexivity.
  - repeat constructor.
  - repeat constructor.
  - vm_compute. reflexivity.
Defined.


(** ** Further properties of [update_tsv_file] *)

Lemma rewrite_output_stable db content out :
  rewrite db content = Some out -> rewrite db out = Some out.
Proof.
  intros Hout.
  destruct (rewrite_Some db content out Hout) as (i & h & E & Hbody).
  pose proof (rewrite_lines db content out i h E Hout) as Hlines.
  apply header_row_in_lines in E as [_ Hh].
  apply (new_header_line_is_header_row h (parse_headers db content)) in Hh.
  unfold rewrite. rewrite Hlines.
  unfold locate_header_row. cbn [locate_from]. rewrite Hh.
  f_equal. rewrite Hbody, !write_body_eq.
  rewrite split_join
    by (apply build_columns_nonempty || apply build_columns_free).
  rewrite build_columns_fixed. cbn [drop Nat.add]. rewrite drop_0.
  now rewrite filter_nonblank_terminated.
Qed.

Lemma rewritten_stable db content :
  rewritten db (rewritten db content) = rewritten db content.
Proof.
  unfold rewritten. destruct (rewrite db content) as [out|] eqn:E.
  - now rewrite (rewrite_output_stable db content out E).
  - now rewrite E.
Qed.

(** The run of [update_tsv_file], by what the store holds at the path. *)
Lemma update_tsv_file_run db tsv_path template_name w :
  update_tsv_file db tsv_path template_name w =
    match files w !! tsv_path with
    | None => None
    | Some content =>
        match rewrite db content with
        | None =>
            Some (false,
                  {| files := files w;
                     trace := trace w ++
                       [EvRead tsv_path;
                        EvPrint (py "  ERROR: No header row found in "
                                 ++ tsv_path)] |})
        | Some written =>
            Some (true,
                  {| files := <[tsv_path := written]> (files w);
                     trace := trace w ++
                       [EvRead tsv_path; EvWrite tsv_path written] |})
        end
    end.
Proof.
  destruct (files w !! tsv_path) as [content|] eqn:Hfile.
  - destruct (rewrite db content) as [written|] eqn:Hr.
    + now apply (update_tsv_file_written db w _ _ content).
    + now apply (update_tsv_file_no_header db w _ _ content).
  - unfold update_tsv_file, io_bind, read_text. now rewrite Hfile.
Qed.

Lemma update_tsv_file_files db tsv_path template_name w ok w' :
  update_tsv_file db tsv_path template_name w = Some (ok, w') ->
  exists content,
    files w !! tsv_path = Some content /\
    ok = bool_decide (rewrite db content <> None) /\
    files w' = <[tsv_path := rewritten db content]> (files w).
Proof.
  rewrite update_tsv_file_run. unfold rewritten.
  destruct (files w !! tsv_path) as [content|] eqn:Hfile; [|discriminate].
  destruct (rewrite db content) as [written|] eqn:Hr;
    intros [= <- <-]; exists content; cbn [files];
    (split; [reflexivity|]); split.
  - symmetry. apply bool_decide_eq_true_2. congruence.
  - now rewrite Hr.
  - symmetry. apply bool_decide_eq_false_2. tauto.
  - rewrite Hr. symmetry. now apply insert_id.
Qed.

(** [update_tsv_file] raises exactly when the store has no file at the
    path. *)
Lemma update_tsv_file_raises_iff_missing db tsv_path template_name w :
  update_tsv_file db tsv_path template_name w = None <->
  files w !! tsv_path = None.
Proof.
  rewrite update_tsv_file_run.
  destruct (files w !! tsv_path) as [content|]; [|easy].
  destruct (rewrite db content); split; discriminate.
Qed.

(** X11. [update_tsv_file] touches the one file it is given: every other
    file keeps its content, no file is created or removed, and when it
    returns [False] the store is as it was. It returns [True] exactly when
    the file has a header row. *)
Theorem update_tsv_file_frame db tsv_path template_name w ok w' :
  update_tsv_file db tsv_path template_name w = Some (ok, w') ->
  (forall other, other <> tsv_path ->
     files w' !! other = files w !! other) /\
  (forall path, is_Some (files w' !! path) <-> is_Some (files w !! path)) /\
  (ok = false -> files w' = files w) /\
  (ok = true <->
   exists content line,
     files w !! tsv_path = Some content /\
     line ∈ split NL content /\ is_header_row line = true).
Proof.
  intros H.
  apply update_tsv_file_files in H as (content & Hfile & -> & ->).
  repeat split.
  - intros other Hne. now apply lookup_insert_ne.
  - destruct (decide (path = tsv_path)) as [->|Hne].
    + rewrite Hfile. eauto.
    + now rewrite lookup_insert_ne.
  - destruct (decide (path = tsv_path)) as [->|Hne].
    + rewrite lookup_insert_eq. eauto.
    + now rewrite lookup_insert_ne.
  - intros Hok. apply bool_decide_eq_false in Hok.
    unfold rewritten. destruct (rewrite db content); [|now apply insert_id].
    exfalso. apply Hok. discriminate.
  - intros Hok. apply bool_decide_eq_true in Hok.
    exists content.
    destruct (rewrite db content) as [out|] eqn:Hr; [|congruence].
    apply rewrite_Some in Hr as (i & h & E & _).
    apply header_row_in_lines in E as [Hi Hh].
    exists h. split; [exact Hfile|]. split; [|exact Hh].
    eapply list_elem_of_lookup_2. exact Hi.
  - intros (content' & line & Hfile' & Hin & Hline).
    apply bool_decide_eq_true. intros Hnone.
    rewrite Hfile in Hfile'. injection Hfile' as <-.
    apply rewrite_None in Hnone. rewrite Forall_forall in Hnone.
    specialize (Hnone line Hin). congruence.
Qed.

Lemma update_tsv_file_frame_witness :
  files
    {| files := <[py "plants.sdrf.tsv" := scenario_output]>
                  (files scenario_world);
       trace := [EvRead (py "plants.sdrf.tsv");
                 EvWrite (py "plants.sdrf.tsv") scenario_output] |}
    !! py "human.sdrf.tsv" = files scenario_world !! py "human.sdrf.tsv".
Proof.
  refine (proj1 (update_tsv_file_frame ascii_only (py "plants.sdrf.tsv")
                   (py "plants") scenario_world true _ _) _ _).
  - vm_compute. reflexivity.
  - intros H. vm_compute in H. discriminate.
Defined.

(** X12. A second [update_tsv_file] on the same file returns what the
    first returned and leaves the store as the first left it. *)
Theorem update_tsv_file_twice db tsv_path template_name w ok w1 :
  update_tsv_file db tsv_path template_name w = Some (ok, w1) ->
  exists w2,
    update_tsv_file db tsv_path template_name w1 = Some (ok, w2) /\
    files w2 = files w1.
Proof.
  intros H.
  apply update_tsv_file_files in H as (content & Hfile & -> & Hw1).
  rewrite update_tsv_file_run, Hw1, lookup_insert_eq.
  unfold rewritten.
  destruct (rewrite db content) as [out|] eqn:Hr.
  - rewrite (rewrite_output_stable db content out Hr).
    rewrite bool_decide_eq_true_2 by discriminate.
    eexists. split; [reflexivity|].
    cbn [files]. now rewrite insert_insert_eq.
  - rewrite Hr. rewrite bool_decide_eq_false_2 by tauto.
    eexists. split; reflexivity.
Qed.

Lemma update_tsv_file_twice_witness :
  exists w2,
    update_tsv_file ascii_only (py "plants.sdrf.tsv") (py "plants")
      {| files := <[py "plants.sdrf.tsv" := scenario_output]>
                    (files scenario_world);
         trace := [EvRead (py "plants.sdrf.tsv");
                   EvWrite (py "plants.sdrf.tsv") scenario_output] |} =
      Some (true, w2) /\
    files w2 =
      <[py "plants.sdrf.tsv" := scenario_output]> (files scenario_world).
Proof.
  apply (update_tsv_file_twice ascii_only (py "plants.sdrf.tsv")
           (py "plants") scenario_world true).
  vm_compute. reflexivity.
Defined.

(** ** [find_tsv_file] *)

Lemma find_in_versions_Some fs template_name entries tsv_file :
  find_in_versions fs template_name entries = Some tsv_file ->
  exists before version_dir after,
    entries = before ++ version_dir :: after /\
    is_dir fs version_dir = true /\
    tsv_file = path_join fs version_dir (template_name ++ py ".sdrf.tsv") /\
    path_exists fs tsv_file = true /\
    Forall (fun dir =>
              is_dir fs dir = false \/
              path_exists fs
                (path_join fs dir (template_name ++ py ".sdrf.tsv")) = false)
      before.
Proof.
  induction entries as [|dir rest IH]; [discriminate|].
  cbn [find_in_versions].
  destruct (is_dir fs dir) eqn:Hd.
  - destruct (path_exists fs (path_join fs dir _)) eqn:He.
    + intros [= <-]. exists [], dir, rest. repeat split; try assumption.
      constructor.
    + intros H. apply IH in H
        as (before & v & after & -> & Hv & -> & Hex & Hbefore).
      exists (dir :: before), v, after. repeat split; try assumption.
      constructor; [now right|assumption].
  - intros H. apply IH in H
      as (before & v & after & -> & Hv & -> & Hex & Hbefore).
    exists (dir :: before), v, after. repeat split; try assumption.
    constructor; [now left|assumption].
Qed.

Lemma find_in_versions_None fs template_name entries :
  find_in_versions fs template_name entries = None <->
  Forall (fun dir =>
            is_dir fs dir = false \/
            path_exists fs
              (path_join fs dir (template_name ++ py ".sdrf.tsv")) = false)
    entries.
Proof.
  induction entries as [|dir rest IH]; cbn [find_in_versions].
  - split; [constructor|reflexivity].
  - destruct (is_dir fs dir) eqn:Hd.
    + destruct (path_exists fs (path_join fs dir _)) eqn:He.
      * split; [discriminate|]. inversion 1 as [|? ? [?|?]]; congruence.
      * rewrite IH. split; [constructor; auto|now inversion 1].
    + rewrite IH. split; [constructor; auto|now inversion 1].
Qed.

(** X13. The path [find_tsv_file] returns is the file named after the
    template in an entry of the template directory that is a directory,
    the file is there, and it is the first such entry in the order of the
    listing: each entry before it is no directory or has no such file. *)
Theorem find_tsv_file_first_match fs template_name tsv_file :
  find_tsv_file fs template_name = Some (Some tsv_file) ->
  path_exists fs (path_join fs (REPO_ROOT fs) template_name) = true /\
  exists before version_dir after,
    iterdir fs (path_join fs (REPO_ROOT fs) template_name) =
      Some (before ++ version_dir :: after) /\
    is_dir fs version_dir = true /\
    tsv_file = path_join fs version_dir (template_name ++ py ".sdrf.tsv") /\
    path_exists fs tsv_file = true /\
    Forall (fun dir =>
              is_dir fs dir = false \/
              path_exists fs
                (path_join fs dir (template_name ++ py ".sdrf.tsv")) = false)
      before.
Proof.
  unfold find_tsv_file.
  destruct (path_exists fs (path_join fs (REPO_ROOT fs) template_name));
    [|discriminate].
  cbn [negb].
  destruct (iterdir fs _) as [entries|]; [|discriminate].
  intros [= H]. split; [reflexivity|].
  apply find_in_versions_Some in H
    as (before & v & after & -> & Hv & -> & Hex & Hbefore).
  exists before, v, after. auto.
Qed.

Lemma find_tsv_file_first_match_witness :
  path_exists demo_host
    (path_join demo_host (REPO_ROOT demo_host) (py "plants")) = true /\
  exists before version_dir after,
    iterdir demo_host
      (path_join demo_host (REPO_ROOT demo_host) (py "plants")) =
      Some (before ++ version_dir :: after) /\
    is_dir demo_host version_dir = true /\
    py "/repo/plants/1.0.0/plants.sdrf.tsv" =
      path_join demo_host version_dir (py "plants" ++ py ".sdrf.tsv") /\
    path_exists demo_host (py "/repo/plants/1.0.0/plants.sdrf.tsv") = true /\
    Forall (fun dir =>
              is_dir demo_host dir = false \/
              path_exists demo_host
                (path_join demo_host dir (py "plants" ++ py ".sdrf.tsv")) =
                false)
      before.
Proof.
  apply (find_tsv_file_first_match demo_host (py "plants")
           (py "/repo/plants/1.0.0/plants.sdrf.tsv")).
  vm_compute. reflexivity.
Defined.

(** X14. [find_tsv_file] returns [None] exactly when the template
    directory does not exist, or it is listed and no entry is a directory
    that holds the file named after the template. *)
Theorem find_tsv_file_none_iff fs template_name :
  find_tsv_file fs template_name = Some None <->
  path_exists fs (path_join fs (REPO_ROOT fs) template_name) = false \/
  exists entries,
    iterdir fs (path_join fs (REPO_ROOT fs) template_name) = Some entries /\
    Forall (fun dir =>
              is_dir fs dir = false \/
              path_exists fs
                (path_join fs dir (template_name ++ py ".sdrf.tsv")) = false)
      entries.
Proof.
  unfold find_tsv_file.
  destruct (path_exists fs (path_join fs (REPO_ROOT fs) template_name));
    cbn [negb]; [|split; auto].
  destruct (iterdir fs _) as [entries|].
  - split.
    + intros [= H]. right. exists entries. split; [reflexivity|].
      now apply find_in_versions_None.
    + intros [?|(entries' & [= <-] & H)]; [discriminate|].
      f_equal. now apply find_in_versions_None.
  - split; [discriminate|].
    intros [?|(entries' & ? & _)]; discriminate.
Qed.

(** ** [main] *)

Lemma count_writes_app (events more : list event) :
  count_writes (events ++ more) = count_writes events + count_writes more.
Proof. unfold count_writes. now rewrite List.filter_app, length_app. Qed.

(** One turn of the loop, by what the search and the store give. *)
Lemma main_step_run db fs updated template_name w :
  main_step db fs updated template_name w =
    match find_tsv_file fs template_name with
    | None => None
    | Some None =>
        Some (updated,
              {| files := files w;
                 trace := trace w ++
                   [EvPrint (py "SKIP: " ++ template_name
                             ++ py " - no TSV file found")] |})
    | Some (Some tsv_path) =>
        match relative_to fs tsv_path (REPO_ROOT fs) with
        | None => None
        | Some shown =>
            match
              update_tsv_file db tsv_path template_name
                {| files := files w;
                   trace := trace w ++ [EvPrint (py "Updating: " ++ shown)] |}
            with
            | None => None
            | Some (ok, w') =>
                Some (if ok : bool then updated + 1 else updated, w')
            end
        end
    end.
Proof.
  unfold main_step, io_bind, io_lift.
  destruct (find_tsv_file fs template_name) as [[tsv_path|]|];
    [|reflexivity..].
  destruct (relative_to fs tsv_path (REPO_ROOT fs)) as [shown|];
    [|reflexivity].
  unfold print at 1. cbn iota beta.
  destruct (update_tsv_file _ _ _ _) as [[ok w']|]; reflexivity.
Qed.

Lemma found_for_cons fs template_name rest path :
  found_for fs (template_name :: rest) path =
    bool_decide (find_tsv_file fs template_name = Some (Some path))
    || found_for fs rest path.
Proof. reflexivity. Qed.

Lemma fmap_rewritten_stable db (o : option (list N)) :
  rewritten db <$> (rewritten db <$> o) = rewritten db <$> o.
Proof. destruct o; simpl; [|reflexivity]. now rewrite rewritten_stable. Qed.

(** One turn that does not raise: the events it adds, the count, and the
    store it leaves. *)
Lemma main_step_spec db fs updated template_name w :
  can_update fs w template_name ->
  exists updated' w' new,
    main_step db fs updated template_name w = Some (updated', w') /\
    trace w' = trace w ++ new /\
    updated' = updated + count_writes new /\
    forall path,
      files w' !! path =
        if bool_decide (find_tsv_file fs template_name = Some (Some path))
        then rewritten db <$> files w !! path
        else files w !! path.
Proof.
  intros (found & Hfind & Hfound). rewrite main_step_run, Hfind.
  destruct found as [tsv_path|].
  - destruct (Hfound tsv_path eq_refl) as [[shown Hshown] [content Hfile]].
    rewrite Hshown, update_tsv_file_run. cbn [files trace]. rewrite Hfile.
    assert (Hpath : forall path out,
      out = rewritten db content ->
      <[tsv_path := out]> (files w) !! path =
        if bool_decide (Some (Some tsv_path) = Some (Some path))
        then rewritten db <$> files w !! path else files w !! path).
    { intros path out ->. destruct (decide (tsv_path = path)) as [<-|Hne].
      - rewrite bool_decide_eq_true_2, lookup_insert_eq, Hfile by reflexivity.
        reflexivity.
      - rewrite bool_decide_eq_false_2, lookup_insert_ne by congruence.
        reflexivity. }
    destruct (rewrite db content) as [out|] eqn:Hr.
    + eexists _, _, [_; _; _]. split; [reflexivity|].
      cbn [files trace]. rewrite <- app_assoc.
      split; [reflexivity|]. split; [cbn; lia|].
      intros path. apply Hpath. unfold rewritten. now rewrite Hr.
    + eexists _, _, [_; _; _]. split; [reflexivity|].
      cbn [files trace]. rewrite <- app_assoc.
      split; [reflexivity|]. split; [cbn; lia|].
      intros path. rewrite <- (Hpath path content).
      * now rewrite insert_id.
      * unfold rewritten. now rewrite Hr.
  - eexists _, _, [_]. split; [reflexivity|].
    cbn [files trace]. split; [reflexivity|]. split; [cbn; lia|].
    intros path. rewrite bool_decide_eq_false_2 by discriminate.
    reflexivity.
Qed.

Lemma main_step_can_update db fs updated template_name w updated' w' :
  main_step db fs updated template_name w = Some (updated', w') ->
  can_update fs w template_name.
Proof.
  rewrite main_step_run.
  destruct (find_tsv_file fs template_name) as [[tsv_path|]|] eqn:Hfind;
    [| |discriminate].
  - destruct (relative_to fs tsv_path (REPO_ROOT fs)) as [shown|] eqn:Hs;
      [|discriminate].
    destruct (update_tsv_file _ _ _ _) as [[ok w1]|] eqn:Hu; [|discriminate].
    intros _. exists (Some tsv_path). split; [exact Hfind|].
    intros ? [= <-]. split; [eauto|].
    destruct (files w !! tsv_path) eqn:Hfile; [eauto|].
    rewrite update_tsv_file_run in Hu. cbn [files] in Hu.
    rewrite Hfile in Hu. discriminate.
  - intros _. exists None. split; [exact Hfind|]. discriminate.
Qed.

Lemma can_update_same_files fs w w' template_name :
  (forall path, is_Some (files w' !! path) <-> is_Some (files w !! path)) ->
  can_update fs w template_name -> can_update fs w' template_name.
Proof.
  intros Hsame (found & Hfind & Hfound). exists found.
  split; [assumption|]. intros tsv_path Hp.
  destruct (Hfound tsv_path Hp) as [Hrel Hfile].
  split; [assumption|]. now apply Hsame.
Qed.

Lemma is_Some_if_rewritten db (b : bool) (o o' : option (list N)) :
  o' = (if b then rewritten db <$> o else o) -> is_Some o' <-> is_Some o.
Proof. intros ->. destruct b; [apply fmap_is_Some|reflexivity]. Qed.

(** The loop where no turn raises: the events it adds, the count, and the
    store it leaves. *)
Lemma main_loop_spec db fs template_names :
  forall updated w,
    Forall (can_update fs w) template_names ->
    exists updated' w' new,
      main_loop db fs template_names updated w = Some (updated', w') /\
      trace w' = trace w ++ new /\
      updated' = updated + count_writes new /\
      forall path,
        files w' !! path =
          if found_for fs template_names path
          then rewritten db <$> files w !! path
          else files w !! path.
Proof.
  induction template_names as [|t ts IH]; intros updated w Hall.
  - exists updated, w, []. cbn. rewrite app_nil_r. auto.
  - inversion Hall as [|? ? Ht Hts]; subst.
    destruct (main_step_spec db fs updated t w Ht)
      as (u1 & w1 & new1 & Hstep & Htrace1 & -> & Hfiles1).
    assert (Hsame : forall path,
              is_Some (files w1 !! path) <-> is_Some (files w !! path))
      by (intros path; eapply is_Some_if_rewritten; apply Hfiles1).
    assert (Hts1 : Forall (can_update fs w1) ts).
    { eapply Forall_impl; [exact Hts|]. intros t'.
      now apply can_update_same_files. }
    destruct (IH (updated + count_writes new1) w1 Hts1)
      as (u' & w' & new2 & Hloop & Htrace2 & -> & Hfiles2).
    exists (updated + count_writes new1 + count_writes new2), w',
      (new1 ++ new2).
    split; [|split; [|split]].
    + cbn [main_loop]. unfold io_bind. now rewrite Hstep.
    + now rewrite Htrace2, Htrace1, app_assoc.
    + rewrite count_writes_app. lia.
    + intros path. rewrite Hfiles2, Hfiles1, found_for_cons.
      destruct (bool_decide (find_tsv_file fs t = Some (Some path))),
        (found_for fs ts path); cbn [orb]; try reflexivity.
      apply fmap_rewritten_stable.
Qed.

Lemma main_loop_can_update db fs template_names :
  forall updated w updated' w',
    main_loop db fs template_names updated w = Some (updated', w') ->
    Forall (can_update fs w) template_names.
Proof.
  induction template_names as [|t ts IH]; intros updated w updated' w' H;
    [constructor|].
  cbn [main_loop] in H. unfold io_bind in H.
  destruct (main_step db fs updated t w) as [[u1 w1]|] eqn:Hstep;
    [|discriminate].
  pose proof (main_step_can_update _ _ _ _ _ _ _ Hstep) as Ht.
  constructor; [exact Ht|].
  destruct (main_step_spec db fs updated t w Ht)
    as (u1' & w1' & new1 & Hstep' & _ & _ & Hfiles1).
  rewrite Hstep in Hstep'. injection Hstep' as <- <-.
  apply IH in H. eapply Forall_impl; [exact H|]. intros t'.
  apply can_update_same_files. intros path. symmetry.
  eapply is_Some_if_rewritten. apply Hfiles1.
Qed.

(** [main] around its loop. *)
Lemma main_run db fs w :
  main db fs w =
    match
      main_loop db fs TEMPLATES 0
        {| files := files w;
           trace :=
             (trace w ++
              [EvPrint
                 (py "Updating TSV templates to column-based metadata...")])
             ++ [EvPrint (replicate 60 45%N)] |}
    with
    | None => None
    | Some (updated, w1) =>
        Some (tt,
              {| files := files w1;
                 trace :=
                   (trace w1 ++ [EvPrint (replicate 60 45%N)])
                   ++ [EvPrint (py "Updated " ++ str_of_nat updated
                                ++ py " TSV files")] |})
    end.
Proof.
  unfold main, io_bind, print. cbn [files trace].
  destruct (main_loop db fs TEMPLATES 0 _) as [[updated w1]|]; reflexivity.
Qed.

Lemma can_update_files fs w w' template_name :
  files w' = files w ->
  can_update fs w template_name -> can_update fs w' template_name.
Proof.
  intros H. apply can_update_same_files. intros path. now rewrite H.
Qed.

Lemma main_can_update db fs w w' :
  main db fs w = Some (tt, w') -> Forall (can_update fs w) TEMPLATES.
Proof.
  rewrite main_run.
  destruct (main_loop db fs TEMPLATES 0 _) as [[updated w1]|] eqn:Hloop;
    [|discriminate].
  intros _. apply main_loop_can_update in Hloop.
  eapply Forall_impl; [exact Hloop|]. intros t.
  now apply can_update_files.
Qed.

(** A run of [main] where no turn raises: the events it adds, with the
    count in the last one, and the store it leaves. *)
Lemma main_spec db fs w :
  Forall (can_update fs w) TEMPLATES ->
  exists w' new,
    main db fs w = Some (tt, w') /\
    trace w' =
      trace w ++
      [EvPrint (py "Updating TSV templates to column-based metadata...");
       EvPrint (replicate 60 45%N)]
      ++ new
      ++ [EvPrint (replicate 60 45%N);
          EvPrint (py "Updated " ++ str_of_nat (count_writes new)
                   ++ py " TSV files")] /\
    forall path,
      files w' !! path =
        if found_for fs TEMPLATES path
        then rewritten db <$> files w !! path
        else files w !! path.
Proof.
  intros Hall. rewrite main_run.
  edestruct (main_loop_spec db fs TEMPLATES 0)
    as (u & w1 & new & -> & Htrace & -> & Hfiles).
  { eapply Forall_impl; [exact Hall|]. intros t.
    now apply can_update_files. }
  eexists _, new. split; [reflexivity|]. cbn [files trace] in *.
  split; [|exact Hfiles].
  rewrite Htrace, <- !app_assoc. reflexivity.
Qed.

(** X15. [main] runs to its end exactly when, for every template of the
    list, the search returns without raising and, where it returns a path,
    the path is below the root and the store has the file. *)
Theorem main_succeeds_iff db fs w :
  (exists w', main db fs w = Some (tt, w')) <->
  Forall (can_update fs w) TEMPLATES.
Proof.
  split.
  - intros [w' H]. now apply (main_can_update db fs w w').
  - intros Hall.
    destruct (main_spec db fs w Hall) as (w' & new & H & _). eauto.
Qed.

(** X16. After [main], a file that the search returns for a template of
    the list holds its rewritten text, or its old text where it has no
    header row, and every other file is as it was. *)
Theorem main_files db fs w w' :
  main db fs w = Some (tt, w') ->
  forall path,
    files w' !! path =
      if found_for fs TEMPLATES path
      then rewritten db <$> files w !! path
      else files w !! path.
Proof.
  intros H.
  destruct (main_spec db fs w (main_can_update db fs w w' H))
    as (w'' & new & H' & _ & Hfiles).
  rewrite H in H'. injection H' as <-. exact Hfiles.
Qed.

Lemma main_files_witness :
  files demo_world_after !! py "/repo/plants/1.0.0/plants.sdrf.tsv" =
    if found_for demo_host TEMPLATES (py "/repo/plants/1.0.0/plants.sdrf.tsv")
    then rewritten ascii_only <$>
           files demo_world !! py "/repo/plants/1.0.0/plants.sdrf.tsv"
    else files demo_world !! py "/repo/plants/1.0.0/plants.sdrf.tsv".
Proof.
  apply (main_files ascii_only demo_host demo_world demo_world_after).
  vm_compute. reflexivity.
Defined.

(** X17. The count that [main] prints last is the number of files it has
    written. *)
Theorem main_counts_writes db fs w w' :
  main db fs w = Some (tt, w') ->
  exists new,
    trace w' = trace w ++ new /\
    last new =
      Some (EvPrint (py "Updated " ++ str_of_nat (count_writes new)
                     ++ py " TSV files")).
Proof.
  intros H.
  destruct (main_spec db fs w (main_can_update db fs w w' H))
    as (w'' & new & H' & Htrace & _).
  rewrite H in H'. injection H' as <-.
  eexists. split; [exact Htrace|].
  change [EvPrint (replicate 60 45%N);
          EvPrint (py "Updated " ++ str_of_nat (count_writes new)
                   ++ py " TSV files")]
    with ([EvPrint (replicate 60 45%N)]
          ++ [EvPrint (py "Updated " ++ str_of_nat (count_writes new)
                       ++ py " TSV files")]).
  rewrite !app_assoc, last_snoc.
  match goal with
  | |- context [str_of_nat (count_writes (?a ++ ?b))] =>
      replace (count_writes (a ++ b)) with (count_writes new)
  end; [reflexivity|].
  rewrite !count_writes_app. cbn. lia.
Qed.

Lemma main_counts_writes_witness :
  exists new,
    trace demo_world_after = trace demo_world ++ new /\
    last new =
      Some (EvPrint (py "Updated " ++ str_of_nat (count_writes new)
                     ++ py " TSV files")).
Proof.
  apply (main_counts_writes ascii_only demo_host demo_world demo_world_after).
  vm_compute. reflexivity.
Defined.

(** X18. A second run of [main] runs to its end as the first did and
    leaves every file as the first run left it. *)
Theorem main_twice db fs w w1 :
  main db fs w = Some (tt, w1) ->
  exists w2, main db fs w1 = Some (tt, w2) /\ files w2 = files w1.
Proof.
  intros H1.
  pose proof (main_can_update db fs w w1 H1) as Hw.
  destruct (main_spec db fs w Hw) as (w1' & new1 & H1' & _ & Hfiles1).
  rewrite H1 in H1'. injection H1' as <-.
  assert (Hall : Forall (can_update fs w1) TEMPLATES).
  { eapply Forall_impl; [exact Hw|]. intros t.
    apply can_update_same_files. intros path.
    eapply is_Some_if_rewritten. apply Hfiles1. }
  destruct (main_spec db fs w1 Hall) as (w2 & new2 & H2 & _ & Hfiles2).
  exists w2. split; [exact H2|].
  apply map_eq. intros path. rewrite Hfiles2, Hfiles1.
  destruct (found_for fs TEMPLATES path); [|reflexivity].
  apply fmap_rewritten_stable.
Qed.

Lemma main_twice_witness :
  exists w2,
    main ascii_only demo_host demo_world_after = Some (tt, w2) /\
    files w2 = files demo_world_after.
Proof.
  apply (main_twice ascii_only demo_host demo_world).
  vm_compute. reflexivity.
Defined.
